(** * HydroMate: a verified model of the hydroponic dosage calculator

    The development follows [main.py] function by function.

    - Python [str] values are sequences of Unicode code points ([pystr]).
    - Python [float] values are IEEE 754 binary64 numbers, modelled by the
      standard library's executable specification [spec_float] at
      precision 53 and maximal exponent 1024: products, quotients and
      comparisons round and compare exactly as the interpreter does.
    - The SQLite file, the terminal input and the terminal output form an
      explicit [World] that every effectful function threads through; a
      Python exception is a value of [exn] carried by [result]. *)

From Stdlib Require Import ZArith NArith List Bool Lia String Ascii.
From Stdlib Require Decimal DecimalString DecimalZ.
From Stdlib Require Import Sorting.Sorted Sorting.Permutation.
From Stdlib Require Import Floats.SpecFloat.
Import ListNotations.

Local Open Scope Z_scope.

(** ** Python strings *)

Module PyStr.

(** A [str] is its sequence of code points. *)
Definition pystr := list N.

Fixpoint eqb (s t : pystr) : bool :=
  match s, t with
  | [], [] => true
  | a :: s', b :: t' => N.eqb a b && eqb s' t'
  | _, _ => false
  end.

(** Lexicographic comparison by code point: Python's [<=] on [str], and
    also SQLite's BINARY collation, since UTF-8 keeps code point order. *)
Fixpoint leb (s t : pystr) : bool :=
  match s, t with
  | [], _ => true
  | _ :: _, [] => false
  | a :: s', b :: t' => N.ltb a b || (N.eqb a b && leb s' t')
  end.

(** [user_input in formula_ids] *)
Definition mem (s : pystr) (l : list pystr) : bool := existsb (eqb s) l.

(** Decoding of the UTF-8 bytes of a source literal into code points. *)
Fixpoint utf8_decode (fuel : nat) (bs : list N) : pystr :=
  match fuel with
  | O => []
  | S fuel' =>
    match bs with
    | [] => []
    | b0 :: r0 =>
      if N.ltb b0 128 then b0 :: utf8_decode fuel' r0
      else if N.ltb b0 224 then
        match r0 with
        | b1 :: r1 =>
          ((b0 mod 32) * 64 + b1 mod 64)%N :: utf8_decode fuel' r1
        | _ => []
        end
      else if N.ltb b0 240 then
        match r0 with
        | b1 :: b2 :: r2 =>
          ((b0 mod 16) * 4096 + (b1 mod 64) * 64 + b2 mod 64)%N
            :: utf8_decode fuel' r2
        | _ => []
        end
      else
        match r0 with
        | b1 :: b2 :: b3 :: r3 =>
          ((b0 mod 8) * 262144 + (b1 mod 64) * 4096
           + (b2 mod 64) * 64 + b3 mod 64)%N :: utf8_decode fuel' r3
        | _ => []
        end
    end
  end.

Fixpoint bytes_of_string (s : string) : list N :=
  match s with
  | EmptyString => []
  | String a s' => N_of_ascii a :: bytes_of_string s'
  end.

(** A literal of the source, written in UTF-8 as the source file is. *)
Definition lit (s : string) : pystr :=
  let bs := bytes_of_string s in utf8_decode (List.length bs) bs.

(** [str.isspace] for one character: the code points that
    [str.strip()] removes. *)
Definition is_space (c : N) : bool :=
  ((9 <=? c) && (c <=? 13) || (28 <=? c) && (c <=? 32)
   || (c =? 133) || (c =? 160) || (c =? 5760)
   || (8192 <=? c) && (c <=? 8202)
   || (c =? 8232) || (c =? 8233) || (c =? 8239) || (c =? 8287)
   || (c =? 12288))%N.

Fixpoint lstrip (s : pystr) : pystr :=
  match s with
  | c :: s' => if is_space c then lstrip s' else s
  | [] => []
  end.

Definition rstrip (s : pystr) : pystr := List.rev (lstrip (List.rev s)).

(** [s.strip()] *)
Definition strip (s : pystr) : pystr := rstrip (lstrip s).

(** [str.lower] on one code point, for ASCII and Latin-1 letters.  Cased
    letters beyond Latin-1 are left as they are: [lower] is only ever
    compared with ['q'], and no such letter lowers to it. *)
Definition lower_cp (c : N) : N :=
  (if (65 <=? c) && (c <=? 90) then c + 32
   else if (192 <=? c) && (c <=? 222) && negb (c =? 215) then c + 32
   else c)%N.

(** [s.lower()] *)
Definition lower (s : pystr) : pystr := map lower_cp s.

(** [sep.join(items)] *)
Fixpoint join (sep : pystr) (items : list pystr) : pystr :=
  match items with
  | [] => []
  | [x] => x
  | x :: rest => x ++ sep ++ join sep rest
  end.

(** The code points of an ASCII text, and back. *)
Definition of_string (s : string) : pystr := bytes_of_string s.

Fixpoint to_string (s : pystr) : option string :=
  match s with
  | [] => Some EmptyString
  | c :: s' =>
    if N.ltb c 256 then option_map (String (ascii_of_N c)) (to_string s')
    else None
  end.

(** [str(n)] for an [int]. *)
Definition of_int (z : Z) : pystr :=
  of_string (DecimalString.NilZero.string_of_int (Z.to_int z)).

(** [int(s)] on plain decimal text: an optional [-] and ASCII digits.
    The rest of [int]'s grammar (surrounding blanks, [+], underscores,
    non-ASCII digits) never reaches it from this program, whose only
    call passes a member of [formula_ids]. [None] is [ValueError]. *)
Definition to_int (s : pystr) : option Z :=
  match to_string s with
  | Some t => option_map Z.of_int (DecimalString.NilZero.int_of_string t)
  | None => None
  end.

End PyStr.

Import PyStr.

(** ** Python floats *)

Module PyFloat.

(** A [float] is a binary64 datum. *)
Definition float := spec_float.

Definition prec : Z := 53.
Definition emax : Z := 1024.

(** [x * y], [x / y], [x < y], [x <= y] *)
Definition mul : float -> float -> float := SFmul prec emax.
Definition div : float -> float -> float := SFdiv prec emax.
Definition ltb : float -> float -> bool := SFltb.
Definition leb : float -> float -> bool := SFleb.

(** [x > y] is [y < x], [x >= y] is [y <= x]. *)
Definition gtb (x y : float) : bool := ltb y x.
Definition geb (x y : float) : bool := leb y x.

(** An [int] operand of a mixed operation, converted to [float]. *)
Definition of_Z (z : Z) : float := binary_normalize prec emax z 0 false.

(** Neither an infinity nor a NaN: the float is a real number. *)
Definition is_finite (x : float) : bool :=
  match x with
  | S754_zero _ | S754_finite _ _ _ => true
  | S754_infinity _ | S754_nan => false
  end.

(** Shapes of a float, by cases on the datum: not a NaN and carrying
    sign [s]; at least zero; a positive real number. *)
Definition signed (s : bool) (x : float) : Prop :=
  match x with
  | S754_zero s' | S754_infinity s' | S754_finite s' _ _ => s' = s
  | S754_nan => False
  end.

Definition nonneg (x : float) : Prop :=
  match x with
  | S754_zero _ => True
  | S754_finite s _ _ | S754_infinity s => s = false
  | S754_nan => False
  end.

Definition positive_real (x : float) : Prop :=
  match x with
  | S754_finite s _ _ => s = false
  | _ => False
  end.

(** The literals of the source. *)
Definition zero : float := S754_zero false.                      (* 0.0 *)
Definition one : float := Eval cbv in of_Z 1.                    (* 1 *)
Definition thousand : float := Eval cbv in of_Z 1000.            (* 1000 *)
Definition floor_0_0001 : float :=                               (* 0.0001 *)
  S754_finite false 7378697629483821 (-66).

(** *** Fixed-point formatting: [f"{x:.2f}"], [f"{x:.4f}"] *)

(** The integer nearest to [num / den], ties to even ([0 < den]). *)
Definition round_half_even (num den : Z) : Z :=
  let q := num / den in
  let r := num mod den in
  match 2 * r ?= den with
  | Lt => q
  | Gt => q + 1
  | Eq => if Z.even q then q else q + 1
  end.

(** The integer nearest to [|x| * 10^digits] for a finite [x]: the
    conversion is correctly rounded, ties to even, on the exact value. *)
Definition scaled (digits : nat) (m : positive) (e : Z) : Z :=
  let p := 10 ^ Z.of_nat digits in
  match e with
  | Zneg k => round_half_even (Zpos m * p) (2 ^ Zpos k)
  | _ => Zpos m * 2 ^ e * p
  end.

(** The decimal digits of [n], at least [digits + 1] of them, with the
    point before the last [digits] (no point for [digits = 0]). *)
Definition point (digits : nat) (n : Z) : pystr :=
  let ds := PyStr.of_int n in
  let ds := repeat 48%N (S digits - List.length ds) ++ ds in
  let k := (List.length ds - digits)%nat in
  match digits with
  | O => ds
  | _ => firstn k ds ++ 46%N :: skipn k ds
  end.

Definition sign_prefix (s : bool) : pystr := if s then [45%N] else [].

(** [format(x, ".<digits>f")] *)
Definition format_f (digits : nat) (x : float) : pystr :=
  match x with
  | S754_nan => lit "nan"
  | S754_infinity s => sign_prefix s ++ lit "inf"
  | S754_zero s => sign_prefix s ++ point digits 0
  | S754_finite s m e => sign_prefix s ++ point digits (scaled digits m e)
  end.

End PyFloat.

Import PyFloat.

(** ** The world the program runs in *)

(** Modelled from the spec: the schema of [database.sqlite], which is not
    among the sources.  Three relations: formulas (id, name), chemicals
    (id, name, chemical notation, category label) and the association of a
    formula with a chemical, carrying a numeric concentration.  Every
    column but the integer keys may hold NULL ([None]). *)
Record formula_row := { f_id : Z; f_name : option pystr }.

Record chemical_row :=
  { c_id : Z; c_name : option pystr; c_chem : option pystr;
    c_ABC : option pystr }.

Record link_row :=
  { fc_formula_id : Z; fc_chemical_id : Z; fc_concentration : option float }.

(** The tables of an opened database; a table that does not exist is
    [None] (a file that does not exist yet is a database with no table). *)
Record Database :=
  { hydroponic_formulas : option (list formula_row);
    chemicals : option (list chemical_row);
    formula_chemicals : option (list link_row) }.

(** What [sqlite3.connect(db_path)] finds. *)
Inductive Store :=
| Unopenable (err : pystr)      (* connect raises sqlite3.Error(err) *)
| Unreadable (err : pystr)      (* connect succeeds, every query raises
                                   sqlite3.Error(err): not a database,
                                   locked, damaged *)
| Opened (db : Database).

(** A connection: to a file no query can read, or to a database. *)
Inductive Connection :=
| Broken (err : pystr)
| Live (db : Database).

(** The exceptions that travel through the program. *)
Inductive exn :=
| SqliteError (msg : pystr)     (* sqlite3.Error and its subclasses *)
| ValueError (msg : pystr)
| EOFError.                     (* input() with nothing left to read *)

Inductive result (A : Type) :=
| Ret (a : A)
| Raise (e : exn).
Arguments Ret {A} a.
Arguments Raise {A} e.

Record World :=
  { db_file : Store;            (* database.sqlite next to the script *)
    stdin : list pystr;         (* the lines the operator will type *)
    stdout : list pystr }.      (* what was written so far, oldest first *)

(** A computation with effects: it may read and write the world and may
    raise. *)
Definition M (A : Type) : Type := World -> result A * World.

Definition ret {A} (a : A) : M A := fun w => (Ret a, w).

Definition raise {A} (e : exn) : M A := fun w => (Raise e, w).

Definition bind {A B} (c : M A) (k : A -> M B) : M B :=
  fun w =>
    match c w with
    | (Ret a, w') => k a w'
    | (Raise e, w') => (Raise e, w')
    end.

Declare Scope py_scope.
Delimit Scope py_scope with py.
Notation "x <- c ;; k" := (bind c (fun x => k))
  (at level 61, c at next level, right associativity) : py_scope.
Notation "c ;; k" := (bind c (fun _ => k))
  (at level 61, right associativity) : py_scope.
Local Open Scope py_scope.

(** [try: body  except sqlite3.Error as e: handler] *)
Definition try_except_sqlite {A} (body : M A) (handler : pystr -> M A) : M A :=
  fun w =>
    match body w with
    | (Raise (SqliteError msg), w') => handler msg w'
    | other => other
    end.

Definition nl : pystr := [10%N].
Definition tab : pystr := [9%N].

(** Writing a text to the terminal. *)
Definition write (s : pystr) (w : World) : World :=
  {| db_file := db_file w; stdin := stdin w; stdout := stdout w ++ [s] |}.

(** The world once [input(prompt)] has written its prompt and taken the
    first pending line, [rest] being the lines after it. *)
Definition asked (prompt : pystr) (rest : list pystr) (w : World) : World :=
  {| db_file := db_file w; stdin := rest; stdout := stdout w ++ [prompt] |}.

(** [print(s)] *)
Definition print (s : pystr) : M unit :=
  fun w => (Ret tt, write (s ++ nl) w).

(** [input(prompt)]: the prompt is written, a line is read. *)
Definition input (prompt : pystr) : M pystr :=
  fun w =>
    let w := write prompt w in
    match stdin w with
    | line :: rest =>
        (Ret line, {| db_file := db_file w; stdin := rest; stdout := stdout w |})
    | [] => (Raise EOFError, w)
    end.

(** [sqlite3.connect(db_path)] *)
Definition sqlite3_connect : M Connection :=
  fun w =>
    match db_file w with
    | Unopenable err => (Raise (SqliteError err), w)
    | Unreadable err => (Ret (Broken err), w)
    | Opened db => (Ret (Live db), w)
    end.

(** Reading a table in a query: [sqlite3.OperationalError] when the
    table does not exist. *)
Definition table {A} (name : string) (t : option (list A)) : M (list A) :=
  match t with
  | Some rows => ret rows
  | None => raise (SqliteError (lit "no such table: " ++ lit name))
  end.

(** [x or <empty string>] for a text column that may be NULL. *)
Definition or_empty (x : option pystr) : pystr :=
  match x with
  | Some s => s
  | None => []
  end.

(** ** The formula repository *)

(** The dictionaries built from the rows.  The key ["name"] of a chemical
    is the field [chemical_name]. *)
Record Formula := { id : Z; name : pystr }.

Record Chemical :=
  { chemical_id : Z;
    chemical_name : pystr;
    chemical_formula : pystr;
    category : pystr;
    concentration : float }.

(** [get_db_connection()]: the connection, or [None] after the diagnostic. *)
Definition get_db_connection : M (option Connection) :=
  try_except_sqlite
    (conn <- sqlite3_connect ;; ret (Some conn))
    (fun e => print (lit "数据库连接失败: " ++ e) ;; ret None).

(** [SELECT id, name FROM hydroponic_formulas] *)
Definition select_formulas (conn : Connection) : M (list formula_row) :=
  match conn with
  | Broken err => raise (SqliteError err)
  | Live db => table "hydroponic_formulas" (hydroponic_formulas db)
  end.

(** [get_all_formulas()] *)
Definition get_all_formulas : M (list Formula) :=
  try_except_sqlite
    (conn <- get_db_connection ;;
     match conn with
     | None => ret []
     | Some conn =>
         res <- select_formulas conn ;;
         ret (map (fun row => {| id := f_id row;
                                 name := or_empty (f_name row) |}) res)
     end)
    (fun e => print (lit "数据库查询失败: " ++ e) ;; ret []).

(** A row of the second query: [c.id, c.name, c.chem, c.ABC,
    fc.concentration]. *)
Record joined_row :=
  { r_id : Z; r_name : option pystr; r_chem : option pystr;
    r_ABC : option pystr; r_concentration : option float }.

(** SQLite's ascending order on a text column: NULL first, then text in
    the BINARY collation. *)
Definition sql_leb (a b : option pystr) : bool :=
  match a, b with
  | None, _ => true
  | Some _, None => false
  | Some s, Some t => PyStr.leb s t
  end.

(** [FROM formula_chemicals fc JOIN chemicals c ON fc.chemical_id = c.id
     WHERE fc.formula_id = ?] *)
Definition join_where (fcs : list link_row) (cs : list chemical_row)
    (formula_id : Z) : list joined_row :=
  flat_map
    (fun fc =>
       if fc_formula_id fc =? formula_id then
         map (fun c => {| r_id := c_id c; r_name := c_name c;
                          r_chem := c_chem c; r_ABC := c_ABC c;
                          r_concentration := fc_concentration fc |})
             (filter (fun c => fc_chemical_id fc =? c_id c) cs)
       else [])
    fcs.

(** [ORDER BY c.ABC].  SQL leaves the order of rows with equal keys open;
    here they keep the order the join produced them in. *)
Fixpoint insert_by_ABC (r : joined_row) (sorted : list joined_row)
  : list joined_row :=
  match sorted with
  | [] => [r]
  | r' :: rest =>
      if sql_leb (r_ABC r') (r_ABC r) then r' :: insert_by_ABC r rest
      else r :: sorted
  end.

Definition order_by_ABC (rows : list joined_row) : list joined_row :=
  fold_left (fun sorted r => insert_by_ABC r sorted) rows [].

(** [cursor.execute(query, (formula_id,))] and [cursor.fetchall()] *)
Definition select_formula_chemicals (conn : Connection) (formula_id : Z)
  : M (list joined_row) :=
  match conn with
  | Broken err => raise (SqliteError err)
  | Live db =>
      fcs <- table "formula_chemicals" (formula_chemicals db) ;;
      cs <- table "chemicals" (chemicals db) ;;
      ret (order_by_ABC (join_where fcs cs formula_id))
  end.

(** The dictionary built from one row. *)
Definition chemical_of_row (row : joined_row) : Chemical :=
  {| chemical_id := r_id row;
     chemical_name := or_empty (r_name row);
     chemical_formula := or_empty (r_chem row);
     category := or_empty (r_ABC row);
     concentration := match r_concentration row with
                      | Some c => c
                      | None => PyFloat.zero
                      end |}.

(** [get_formula_chemicals(formula_id)] *)
Definition get_formula_chemicals (formula_id : Z) : M (list Chemical) :=
  try_except_sqlite
    (conn <- get_db_connection ;;
     match conn with
     | None => ret []
     | Some conn =>
         res <- select_formula_chemicals conn formula_id ;;
         ret (map chemical_of_row res)
     end)
    (fun e => print (lit "查询配方化合物失败: " ++ e) ;; ret []).

(** ** The report table *)

(** The [PrettyTable] object: what the program sets and adds. *)
Record PrettyTable :=
  { field_names : list pystr;
    align : pystr;
    float_format : pystr;
    rows : list (list pystr) }.

(** [PrettyTable()] *)
Definition new_table : PrettyTable :=
  {| field_names := []; align := lit "c"; float_format := []; rows := [] |}.

Definition set_field_names (t : PrettyTable) (names : list pystr) :=
  {| field_names := names; align := align t;
     float_format := float_format t; rows := rows t |}.

Definition set_align (t : PrettyTable) (a : pystr) :=
  {| field_names := field_names t; align := a;
     float_format := float_format t; rows := rows t |}.

Definition set_float_format (t : PrettyTable) (f : pystr) :=
  {| field_names := field_names t; align := align t;
     float_format := f; rows := rows t |}.

(** [table.add_row(row)]: the row goes after the rows already there. *)
Definition add_row (t : PrettyTable) (row : list pystr) : PrettyTable :=
  {| field_names := field_names t; align := align t;
     float_format := float_format t; rows := rows t ++ [row] |}.

(** ** Input validation, dosage computation and the session *)

Section Program.

(** The interpreter's [float(s)] ([None] is [ValueError]) and [str(x)] of
    a float, and the table library's [str(table)]. *)
Variable py_float : pystr -> option float.
Variable float_str : float -> pystr.
Variable table_str : PrettyTable -> pystr.

(** [f"{s:<12}"] *)
Definition ljust (width : nat) (s : pystr) : pystr :=
  s ++ repeat 32%N (width - List.length s).

(** [for x in xs: body(x)] for a body with effects. *)
Fixpoint for_each {A} (xs : list A) (body : A -> M unit) : M unit :=
  match xs with
  | [] => ret tt
  | x :: rest => body x ;; for_each rest body
  end.

(** [display_formulas(formulas)] *)
Definition display_formulas (formulas : list Formula) : M unit :=
  match formulas with
  | [] => print (lit "没有查询到配方数据")
  | _ =>
      print (nl ++ lit "水培配方列表:") ;;
      print (lit "ID" ++ tab ++ lit "名称") ;;
      print (repeat 45%N 30) ;;
      for_each formulas
        (fun formula =>
           print (PyStr.of_int (id formula) ++ tab ++ ljust 12 (name formula)))
  end.

(** The texts of the formula prompt. *)
Definition formula_id_prompt : pystr :=
  nl ++ lit "请输入需要查看的配方 ID（输入 'q' 退出）: ".

Definition invalid_id_message (formula_ids : list pystr) : pystr :=
  lit "无效 ID，请输入以下 ID 之一: " ++ join (lit ", ") formula_ids.

(** [formula_ids = [str(formula['id']) for formula in formulas]] *)
Definition formula_ids_of (formulas : list Formula) : list pystr :=
  map (fun formula => PyStr.of_int (id formula)) formulas.

(** One turn of the [while True] loop of [get_valid_formula_id], then the
    next turns; [fuel] bounds the number of turns. *)
Fixpoint get_valid_formula_id_loop (fuel : nat) (formulas : list Formula)
    (formula_ids : list pystr) : M (option Z) :=
  match fuel with
  | O => raise EOFError
  | S fuel' =>
      display_formulas formulas ;;
      line <- input formula_id_prompt ;;
      let user_input := strip line in
      if PyStr.eqb (lower user_input) (lit "q") then
        print (lit "程序退出") ;; ret None
      else if PyStr.mem user_input formula_ids then
        match PyStr.to_int user_input with
        | Some n => ret (Some n)
        | None => raise (ValueError (lit "invalid literal for int()"))
        end
      else
        print (invalid_id_message formula_ids) ;;
        get_valid_formula_id_loop fuel' formulas formula_ids
  end.

(** [get_valid_formula_id(formulas)].  Every turn reads a line, so one
    turn more than there are lines left is enough for the loop to end. *)
Definition get_valid_formula_id (formulas : list Formula) : M (option Z) :=
  fun w =>
    let formula_ids := formula_ids_of formulas in
    get_valid_formula_id_loop (S (List.length (stdin w))) formulas formula_ids w.

Fixpoint get_valid_float_loop (fuel : nat) (prompt : pystr)
    (min_value : float) : M float :=
  match fuel with
  | O => raise EOFError
  | S fuel' =>
      line <- input prompt ;;
      let user_input := strip line in
      match py_float user_input with
      | Some value =>
          if PyFloat.ltb value min_value then
            print (lit "输入必须大于或等于 " ++ float_str min_value) ;;
            get_valid_float_loop fuel' prompt min_value
          else ret value
      | None =>
          print (lit "请输入有效的数字") ;;
          get_valid_float_loop fuel' prompt min_value
      end
  end.

(** [get_valid_float(prompt, min_value)] *)
Definition get_valid_float (prompt : pystr) (min_value : float) : M float :=
  fun w => get_valid_float_loop (S (List.length (stdin w))) prompt min_value w.

(** The body of the [for chemical in chemicals] loop, in its parts. *)

(** [mass]: mg/L * L * factor / 1000 = g, evaluated left to right. *)
Definition mass (chemical : Chemical) (volume_l dilution_factor : float) : float :=
  PyFloat.div
    (PyFloat.mul (PyFloat.mul (concentration chemical) volume_l) dilution_factor)
    PyFloat.thousand.

Definition is_stock_solution (dilution_factor : float) : bool :=
  PyFloat.gtb dilution_factor PyFloat.one.

Definition stock_solution (dilution_factor : float) : pystr :=
  if is_stock_solution dilution_factor then lit "是" else lit "否".

(** [chemical['chemical_formula'] or "-"] *)
Definition formula_display (chemical : Chemical) : pystr :=
  match chemical_formula chemical with
  | [] => lit "-"
  | f => f
  end.

(** The list handed to [table.add_row]. *)
Definition dose_row (chemical : Chemical) (volume_l dilution_factor : float)
  : list pystr :=
  [ category chemical;
    chemical_name chemical;
    formula_display chemical;
    format_f 2 (concentration chemical);
    format_f 4 (mass chemical volume_l dilution_factor);
    stock_solution dilution_factor ].

(** The text before the table. *)
Definition report_header (selected_formula : Formula)
    (volume_l dilution_factor : float) : pystr :=
  nl ++ lit "处理结果：" ++ nl
  ++ lit "配方 ID: " ++ PyStr.of_int (id selected_formula) ++ nl
  ++ lit "配方名称: " ++ name selected_formula ++ nl
  ++ lit "输入体积: " ++ format_f 2 volume_l ++ lit " L" ++ nl
  ++ lit "稀释倍数: " ++ format_f 2 dilution_factor ++ lit "x" ++ nl
  ++ nl ++ lit "所需化合物：" ++ nl.

(** The table: created, configured, then filled by the loop. *)
Definition report_table (chemicals : list Chemical)
    (volume_l dilution_factor : float) : PrettyTable :=
  let table := new_table in
  let table :=
    set_field_names table
      [lit "分类"; lit "名称"; lit "化学式"; lit "浓度(mg/L)";
       lit "质量(g)"; lit "母液"] in
  let table := set_align table (lit "l") in
  let table := set_float_format table (lit ".4") in
  fold_left
    (fun table chemical =>
       add_row table (dose_row chemical volume_l dilution_factor))
    chemicals table.

(** [process_formula(formula_id, volume_l, dilution_factor, formulas)] *)
Definition process_formula (formula_id : Z) (volume_l dilution_factor : float)
    (formulas : list Formula) : M pystr :=
  match find (fun f => id f =? formula_id) formulas with
  | None =>
      ret (lit "错误：未找到 ID 为 " ++ PyStr.of_int formula_id ++ lit " 的配方")
  | Some selected_formula =>
      chemicals <- get_formula_chemicals formula_id ;;
      match chemicals with
      | [] =>
          ret (lit "错误：配方 ID " ++ PyStr.of_int formula_id
               ++ lit " 未关联任何化合物")
      | _ =>
          let result := report_header selected_formula volume_l dilution_factor in
          let table := report_table chemicals volume_l dilution_factor in
          ret (result ++ table_str table ++ nl)
      end
  end.

(** [str(e)] of a caught exception. *)
Definition exn_str (e : exn) : pystr :=
  match e with
  | SqliteError msg => msg
  | ValueError msg => msg
  | EOFError => lit "EOF when reading a line"
  end.

(** [try: body  except Exception as e: handler  finally: closing] *)
Definition try_except_finally {A} (body : M A) (handler : exn -> M A)
    (closing : M unit) : M A :=
  fun w =>
    let '(r, w1) := match body w with
                    | (Raise e, w') => handler e w'
                    | other => other
                    end in
    match closing w1 with
    | (Ret _, w2) => (r, w2)
    | (Raise e, w2) => (Raise e, w2)
    end.

(** [main()].  The lines of [stdin] are all the operator does, so the
    handler of [KeyboardInterrupt] has nothing to catch here; every
    exception of the model is an [Exception]. *)
Definition main : M unit :=
  all_formulas <- get_all_formulas ;;
  match all_formulas with
  | [] =>
      print (lit "无法继续：没有查询到配方数据") ;;
      input (lit "按 Enter 键退出...") ;;
      ret tt
  | _ =>
      try_except_finally
        (formula_id <- get_valid_formula_id all_formulas ;;
         match formula_id with
         | None => ret tt
         | Some formula_id =>
             volume_l <-
               get_valid_float (lit "请输入体积（L，需大于 0）: ")
                 PyFloat.floor_0_0001 ;;
             dilution_factor <-
               get_valid_float
                 (lit "请输入稀释倍数（例如 1 表示直接配制，10 表示 10x 母液，需大于 0）: ")
                 PyFloat.floor_0_0001 ;;
             result <-
               process_formula formula_id volume_l dilution_factor all_formulas ;;
             print result
         end)
        (fun e => print (lit "程序发生错误: " ++ exn_str e))
        (print (lit "程序已结束。") ;; input (lit "按 Enter 键退出...") ;; ret tt)
  end.

End Program.

(** ** Orders and sample data used in the statements *)

(** Rows in the order of [ORDER BY c.ABC]; chemicals in ascending order
    of their category. *)
Definition row_le (r r' : joined_row) : Prop :=
  sql_leb (r_ABC r) (r_ABC r') = true.

Definition category_le (a b : Chemical) : Prop :=
  PyStr.leb (category a) (category b) = true.

(** A data-source failure, as each query meets it: the file cannot be
    opened; or it cannot be read, or a table the query reads is missing. *)
Definition connection_fails (w : World) : Prop :=
  exists err, db_file w = Unopenable err.

Definition formulas_query_fails (w : World) : Prop :=
  (exists err, db_file w = Unreadable err)
  \/ exists db, db_file w = Opened db /\ hydroponic_formulas db = None.

Definition chemicals_query_fails (w : World) : Prop :=
  (exists err, db_file w = Unreadable err)
  \/ exists db, db_file w = Opened db
                /\ (formula_chemicals db = None \/ chemicals db = None).

(** The concentration of a returned chemical is the one stored on an
    association of the formula with it, 0.0 standing for NULL. *)
Definition stored_concentration (formula_id : Z) (w : World) (ch : Chemical)
  : Prop :=
  exists db fcs fc,
    db_file w = Opened db /\ formula_chemicals db = Some fcs
    /\ In fc fcs /\ fc_formula_id fc = formula_id
    /\ fc_chemical_id fc = chemical_id ch
    /\ concentration ch = match fc_concentration fc with
                          | Some c => c
                          | None => PyFloat.zero
                          end
    /\ (match fc_concentration fc with
        | Some c => PyFloat.geb c PyFloat.zero = true
        | None => True
        end -> PyFloat.geb (concentration ch) PyFloat.zero = true).

Module Sample.

(** A small catalog: formula 1 with two chemicals at 150 and 50 mg/L,
    formula 2 with a chemical whose concentration, notation and label are
    NULL, formula 3 with no chemical at all. *)
Definition catalog : Database :=
  {| hydroponic_formulas :=
       Some [ {| f_id := 1; f_name := Some (lit "Hoagland") |};
              {| f_id := 2; f_name := None |};
              {| f_id := 3; f_name := Some (lit "Empty") |} ];
     chemicals :=
       Some [ {| c_id := 10; c_name := Some (lit "Potassium nitrate");
                 c_chem := Some (lit "KNO3"); c_ABC := Some (lit "B") |};
              {| c_id := 11; c_name := Some (lit "Calcium nitrate");
                 c_chem := Some (lit "Ca(NO3)2"); c_ABC := Some (lit "A") |};
              {| c_id := 12; c_name := Some (lit "Chelated iron");
                 c_chem := None; c_ABC := None |} ];
     formula_chemicals :=
       Some [ {| fc_formula_id := 1; fc_chemical_id := 10;
                 fc_concentration := Some (PyFloat.of_Z 150) |};
              {| fc_formula_id := 1; fc_chemical_id := 11;
                 fc_concentration := Some (PyFloat.of_Z 50) |};
              {| fc_formula_id := 2; fc_chemical_id := 12;
                 fc_concentration := None |} ] |}.

(** The same chemicals, with a negative concentration stored. *)
Definition negative_catalog : Database :=
  {| hydroponic_formulas := hydroponic_formulas catalog;
     chemicals := chemicals catalog;
     formula_chemicals :=
       Some [ {| fc_formula_id := 1; fc_chemical_id := 10;
                 fc_concentration := Some (PyFloat.of_Z (-25)) |} ] |}.

(** A database file without the association table. *)
Definition broken_catalog : Database :=
  {| hydroponic_formulas := None;
     chemicals := chemicals catalog;
     formula_chemicals := None |}.

(** What the query returns for formula 2. *)
Definition chelated_iron : Chemical :=
  {| chemical_id := 12; chemical_name := lit "Chelated iron";
     chemical_formula := []; category := [];
     concentration := PyFloat.zero |}.

(** What the query returns for formula 1 at category B. *)
Definition potassium_nitrate : Chemical :=
  {| chemical_id := 10; chemical_name := lit "Potassium nitrate";
     chemical_formula := lit "KNO3"; category := lit "B";
     concentration := PyFloat.of_Z 150 |}.

(** What the query returns for formula 1 at category A. *)
Definition calcium_nitrate : Chemical :=
  {| chemical_id := 11; chemical_name := lit "Calcium nitrate";
     chemical_formula := lit "Ca(NO3)2"; category := lit "A";
     concentration := PyFloat.of_Z 50 |}.

Definition world (store : Store) (lines : list pystr) : World :=
  {| db_file := store; stdin := lines; stdout := [] |}.

Definition formulas : list Formula :=
  [ {| id := 1; name := lit "Hoagland" |};
    {| id := 2; name := [] |};
    {| id := 3; name := lit "Empty" |} ].

(** [float(s)] on the spellings the examples type in. *)
Definition float_of (s : pystr) : option float :=
  if PyStr.eqb s (lit "0.0001") then Some PyFloat.floor_0_0001
  else if PyStr.eqb s (lit "0") then Some PyFloat.zero
  else if PyStr.eqb s (lit "1") then Some PyFloat.one
  else if PyStr.eqb s (lit "2") then Some (PyFloat.of_Z 2)
  else if PyStr.eqb s (lit "10") then Some (PyFloat.of_Z 10)
  else if PyStr.eqb s (lit "inf") then Some (S754_infinity false)
  else if PyStr.eqb s (lit "nan") then Some S754_nan
  else None.

(** [str(x)] for the one float the examples print, the floor 0.0001. *)
Definition str_of (x : float) : pystr := lit "0.0001".

(** A plain rendering of a table: one line per row, cells separated
    by a bar. *)
Definition bars (t : PrettyTable) : pystr :=
  List.concat (map (fun row => join (lit "|") row ++ nl) (rows t)).

End Sample.

(** ** What the prompts make of a line, whatever the number of turns *)

(** A line the numeric prompt asks again on: not a number, or a number
    below [min_value]. *)
Definition float_rejected (py_float : pystr -> option float)
    (min_value : float) (line : pystr) : Prop :=
  match py_float (strip line) with
  | Some value => PyFloat.ltb value min_value = true
  | None => True
  end.

(** A line the numeric prompt returns [value] on. *)
Definition float_accepted (py_float : pystr -> option float)
    (min_value : float) (line : pystr) (value : float) : Prop :=
  py_float (strip line) = Some value /\ PyFloat.ltb value min_value = false.

(** What a call of [get_valid_float] that started with [lines] pending
    ends with: a value, from the first line that is not rejected; or
    [EOFError], every line being rejected. *)
Definition float_prompt_post (py_float : pystr -> option float)
    (min_value : float) (lines : list pystr) (r : result float * World)
  : Prop :=
  match r with
  | (Ret value, w') =>
      exists before line,
        lines = before ++ line :: stdin w'
        /\ Forall (float_rejected py_float min_value) before
        /\ float_accepted py_float min_value line value
  | (Raise e, w') =>
      e = EOFError /\ stdin w' = []
      /\ Forall (float_rejected py_float min_value) lines
  end.

(** A line that is the quit token, in either case. *)
Definition is_quit (line : pystr) : Prop :=
  strip line = lit "q" \/ strip line = lit "Q".

(** A line the formula prompt asks again on. *)
Definition id_rejected (formulas : list Formula) (line : pystr) : Prop :=
  ~ is_quit line
  /\ forall f, In f formulas -> strip line <> PyStr.of_int (id f).

(** What a call of [get_valid_formula_id] that started with [lines]
    pending ends with: the id of a known formula or the no-selection
    value, from the first line that is not rejected; or [EOFError]. *)
Definition formula_prompt_post (formulas : list Formula)
    (lines : list pystr) (r : result (option Z) * World) : Prop :=
  match r with
  | (Ret (Some n), w') =>
      exists before line f,
        lines = before ++ line :: stdin w'
        /\ Forall (id_rejected formulas) before
        /\ In f formulas /\ id f = n /\ strip line = PyStr.of_int n
  | (Ret None, w') =>
      exists before line,
        lines = before ++ line :: stdin w'
        /\ Forall (id_rejected formulas) before
        /\ is_quit line
  | (Raise e, w') =>
      e = EOFError /\ stdin w' = []
      /\ Forall (id_rejected formulas) lines
  end.

(** The line [display_formulas] prints for a formula. *)
Definition formula_line (formula : Formula) : pystr :=
  (PyStr.of_int (id formula) ++ tab ++ ljust 12 (name formula)) ++ nl.

(** ** The parts of the session *)

(** What [main] writes last. *)
Definition closing_message : pystr := lit "程序已结束。" ++ nl.
Definition enter_prompt : pystr := lit "按 Enter 键退出...".

(** The body of the [try] block of [main]. *)
Definition session_body (py_float : pystr -> option float)
    (float_str : float -> pystr) (table_str : PrettyTable -> pystr)
    (all_formulas : list Formula) : M unit :=
  (formula_id <- get_valid_formula_id all_formulas ;;
   match formula_id with
   | None => ret tt
   | Some formula_id =>
       volume_l <-
         get_valid_float py_float float_str (lit "请输入体积（L，需大于 0）: ")
           PyFloat.floor_0_0001 ;;
       dilution_factor <-
         get_valid_float py_float float_str
           (lit "请输入稀释倍数（例如 1 表示直接配制，10 表示 10x 母液，需大于 0）: ")
           PyFloat.floor_0_0001 ;;
       result <-
         process_formula table_str formula_id volume_l dilution_factor
           all_formulas ;;
       print result
   end)%py.

(** * Properties *)

(** ** Signs through binary64 rounding *)

Module FloatFacts.

Lemma iter_pos_invariant (A : Type) (P : A -> Prop) (f : A -> A) :
  (forall x, P x -> P (f x)) -> forall n x, P x -> P (iter_pos f n x).
Proof.
  intros Hf n; induction n as [n IH | n IH | ]; intros x Hx; simpl; auto.
Qed.

Lemma shr_1_nonneg mrs : 0 <= shr_m mrs -> 0 <= shr_m (shr_1 mrs).
Proof.
  destruct mrs as [m r s]; simpl; intros Hm.
  destruct m as [ | [p | p | ] | p]; simpl; lia.
Qed.

Lemma shr_nonneg mrs e n : 0 <= shr_m mrs -> 0 <= shr_m (fst (shr mrs e n)).
Proof.
  intros Hm; destruct n; simpl; auto.
  apply iter_pos_invariant with (P := fun r => 0 <= shr_m r);
    auto using shr_1_nonneg.
Qed.

Lemma shr_fexp_nonneg m e l :
  0 <= m -> 0 <= shr_m (fst (shr_fexp prec emax m e l)).
Proof.
  intros Hm; unfold shr_fexp; apply shr_nonneg.
  destruct l as [ | [ | | ]]; exact Hm.
Qed.

Lemma round_nearest_even_nonneg m l : 0 <= m -> 0 <= round_nearest_even m l.
Proof.
  intros Hm; destruct l as [ | [ | | ]]; simpl; try lia.
  destruct (Z.even m); lia.
Qed.

(** Rounding a non-negative mantissa never yields a NaN and keeps the
    sign it was given. *)
Lemma binary_round_aux_signed s m e l :
  0 <= m -> signed s (binary_round_aux prec emax s m e l).
Proof.
  intros Hm; unfold binary_round_aux.
  pose proof (shr_fexp_nonneg m e l Hm) as H1.
  destruct (shr_fexp prec emax m e l) as [mrs' e'].
  simpl in H1.
  pose proof (round_nearest_even_nonneg _ (loc_of_shr_record mrs') H1) as H2.
  pose proof (shr_fexp_nonneg _ e' loc_Exact H2) as H3.
  destruct (shr_fexp prec emax _ e' loc_Exact) as [mrs'' e''].
  simpl in H3.
  destruct (shr_m mrs'') as [ | p | p]; simpl; auto; try lia.
  destruct (Z.leb e'' _); reflexivity.
Qed.

Lemma div_core_nonneg mx ex my ey :
  0 <= fst (fst (SFdiv_core_binary prec emax (Zpos mx) ex (Zpos my) ey)).
Proof.
  unfold SFdiv_core_binary.
  set (s := Z.sub _ _).
  set (m' := match s with Zpos _ => _ | Z0 => _ | Zneg _ => _ end).
  assert (Hm' : 0 <= m').
  { subst m'; destruct s; try lia. apply Z.shiftl_nonneg; lia. }
  pose proof (Z.div_pos m' (Zpos my) Hm' ltac:(lia)) as Hq.
  unfold Z.div in Hq.
  destruct (Z.div_eucl m' (Zpos my)) as [q r]; simpl in *; exact Hq.
Qed.

(** The shapes are what the comparisons of the language decide. *)
Lemma nonneg_iff x : nonneg x <-> PyFloat.geb x PyFloat.zero = true.
Proof.
  destruct x as [s | [ | ] | | [ | ] m e]; simpl; cbv; intuition congruence.
Qed.

Lemma positive_real_iff x :
  positive_real x <-> PyFloat.gtb x PyFloat.zero = true /\ is_finite x = true.
Proof.
  destruct x as [s | [ | ] | | [ | ] m e]; simpl; cbv; intuition congruence.
Qed.

Lemma signed_nonneg x : signed false x -> nonneg x.
Proof. destruct x; simpl; auto. Qed.

Lemma mul_nonneg x y : nonneg x -> positive_real y -> nonneg (PyFloat.mul x y).
Proof.
  destruct x as [sx | sx | | sx mx ex], y as [sy | sy | | sy my ey];
    simpl; try tauto; intros Hx Hy; subst; try reflexivity.
  apply signed_nonneg, binary_round_aux_signed; lia.
Qed.

Lemma div_nonneg x y : nonneg x -> positive_real y -> nonneg (PyFloat.div x y).
Proof.
  destruct x as [sx | sx | | sx mx ex], y as [sy | sy | | sy my ey];
    simpl; try tauto; intros Hx Hy; subst; try reflexivity.
  pose proof (div_core_nonneg mx ex my ey) as Hq.
  destruct (SFdiv_core_binary prec emax (Zpos mx) ex (Zpos my) ey) as [[q e'] l].
  apply signed_nonneg, binary_round_aux_signed; exact Hq.
Qed.

End FloatFacts.

(** ** The order of the chemicals of a formula *)

Module OrderFacts.

Lemma leb_total s t : PyStr.leb s t = false -> PyStr.leb t s = true.
Proof.
  revert t; induction s as [ | a s IH]; intros [ | b t]; simpl; try congruence.
  intros H. apply orb_false_iff in H as [Hlt H].
  apply N.ltb_ge in Hlt.
  destruct (N.eqb_spec a b) as [-> | Hne].
  - simpl in H. rewrite N.eqb_refl, (IH _ H). apply orb_true_r.
  - assert (Hba : (b <? a)%N = true) by (apply N.ltb_lt; lia).
    now rewrite Hba.
Qed.

Lemma leb_trans s t u :
  PyStr.leb s t = true -> PyStr.leb t u = true -> PyStr.leb s u = true.
Proof.
  revert t u; induction s as [ | a s IH]; intros [ | b t] [ | c u]; simpl;
    try congruence.
  intros H1 H2.
  destruct (N.ltb_spec a c) as [Hac | Hac]; [reflexivity | simpl].
  apply orb_true_iff in H1 as [H1 | H1]; [apply N.ltb_lt in H1 | ];
    (apply orb_true_iff in H2 as [H2 | H2]; [apply N.ltb_lt in H2 | ]);
    try apply andb_true_iff in H1 as [E1 H1];
    try apply andb_true_iff in H2 as [E2 H2];
    try apply N.eqb_eq in E1; try apply N.eqb_eq in E2; try lia.
  subst. rewrite N.eqb_refl. simpl. eapply IH; eauto.
Qed.

Lemma sql_leb_total a b : sql_leb a b = false -> sql_leb b a = true.
Proof.
  destruct a as [s | ], b as [t | ]; simpl; try congruence. apply leb_total.
Qed.

Lemma sql_leb_or_empty a b :
  sql_leb a b = true -> PyStr.leb (or_empty a) (or_empty b) = true.
Proof.
  destruct a as [s | ], b as [t | ]; simpl; try congruence; auto.
Qed.

Lemma insert_by_ABC_hd r r0 l :
  HdRel row_le r0 l -> row_le r0 r -> HdRel row_le r0 (insert_by_ABC r l).
Proof.
  intros Hl Hr; destruct l as [ | r' l]; simpl.
  - now constructor.
  - destruct (sql_leb (r_ABC r') (r_ABC r)); constructor; auto.
    now inversion Hl.
Qed.

Lemma insert_by_ABC_sorted r l :
  Sorted row_le l -> Sorted row_le (insert_by_ABC r l).
Proof.
  induction 1 as [ | r' l Hs IH Hhd]; simpl.
  - repeat constructor.
  - destruct (sql_leb (r_ABC r') (r_ABC r)) eqn:E.
    + constructor; auto. now apply insert_by_ABC_hd.
    + constructor; [now constructor | ].
      constructor. now apply sql_leb_total.
Qed.

Lemma order_by_ABC_sorted rows : Sorted row_le (order_by_ABC rows).
Proof.
  unfold order_by_ABC.
  assert (H : forall acc, Sorted row_le acc ->
              Sorted row_le (fold_left (fun sorted r => insert_by_ABC r sorted) rows acc)).
  { induction rows as [ | r rows IH]; simpl; intros acc Hacc; auto.
    apply IH, insert_by_ABC_sorted, Hacc. }
  apply H; constructor.
Qed.

Lemma insert_by_ABC_in x r l : In x (insert_by_ABC r l) <-> x = r \/ In x l.
Proof.
  induction l as [ | r' l IH]; simpl.
  - intuition.
  - destruct (sql_leb (r_ABC r') (r_ABC r)); simpl; rewrite ?IH; intuition.
Qed.

Lemma order_by_ABC_in x rows : In x (order_by_ABC rows) <-> In x rows.
Proof.
  unfold order_by_ABC.
  assert (H : forall acc, In x (fold_left (fun sorted r => insert_by_ABC r sorted) rows acc)
                          <-> In x acc \/ In x rows).
  { induction rows as [ | r rows IH]; simpl; intros acc.
    - intuition.
    - rewrite IH, insert_by_ABC_in. intuition. }
  rewrite H; simpl; intuition.
Qed.

Lemma chemicals_sorted rows :
  StronglySorted category_le (map chemical_of_row (order_by_ABC rows)).
Proof.
  apply Sorted_StronglySorted.
  - intros a b c; unfold category_le; apply leb_trans.
  - generalize (order_by_ABC_sorted rows).
    induction 1 as [ | r l Hs IH Hhd]; simpl; constructor; auto.
    destruct Hhd as [ | r' l Hr]; simpl; constructor.
    unfold category_le; simpl. now apply sql_leb_or_empty.
Qed.

End OrderFacts.

(** ** The formula repository *)

Module RepositoryFacts.

(** What each function returns and writes, by the state of the store. *)
Lemma get_db_connection_eq w :
  get_db_connection w =
  match db_file w with
  | Unopenable err =>
      (Ret None, write ((lit "数据库连接失败: " ++ err) ++ nl) w)
  | Unreadable err => (Ret (Some (Broken err)), w)
  | Opened db => (Ret (Some (Live db)), w)
  end.
Proof.
  unfold get_db_connection, try_except_sqlite, bind, sqlite3_connect.
  destruct (db_file w); reflexivity.
Qed.

Lemma get_all_formulas_eq w :
  get_all_formulas w =
  match db_file w with
  | Unopenable err =>
      (Ret [], write ((lit "数据库连接失败: " ++ err) ++ nl) w)
  | Unreadable err =>
      (Ret [], write ((lit "数据库查询失败: " ++ err) ++ nl) w)
  | Opened db =>
      match hydroponic_formulas db with
      | Some res =>
          (Ret (map (fun row => {| id := f_id row; name := or_empty (f_name row) |}) res), w)
      | None =>
          (Ret [], write ((lit "数据库查询失败: " ++ lit "no such table: hydroponic_formulas") ++ nl) w)
      end
  end.
Proof.
  unfold get_all_formulas, try_except_sqlite at 1, bind at 1.
  rewrite get_db_connection_eq.
  destruct (db_file w) as [err | err | db]; [reflexivity | reflexivity | ].
  unfold select_formulas, table, bind.
  destruct (hydroponic_formulas db); reflexivity.
Qed.

Lemma get_formula_chemicals_eq formula_id w :
  get_formula_chemicals formula_id w =
  match db_file w with
  | Unopenable err =>
      (Ret [], write ((lit "数据库连接失败: " ++ err) ++ nl) w)
  | Unreadable err =>
      (Ret [], write ((lit "查询配方化合物失败: " ++ err) ++ nl) w)
  | Opened db =>
      match formula_chemicals db, chemicals db with
      | Some fcs, Some cs =>
          (Ret (map chemical_of_row (order_by_ABC (join_where fcs cs formula_id))), w)
      | None, _ =>
          (Ret [], write ((lit "查询配方化合物失败: " ++ lit "no such table: formula_chemicals") ++ nl) w)
      | Some _, None =>
          (Ret [], write ((lit "查询配方化合物失败: " ++ lit "no such table: chemicals") ++ nl) w)
      end
  end.
Proof.
  unfold get_formula_chemicals, try_except_sqlite at 1, bind at 1.
  rewrite get_db_connection_eq.
  destruct (db_file w) as [err | err | db]; [reflexivity | reflexivity | ].
  unfold select_formula_chemicals, table, bind.
  destruct (formula_chemicals db); [ | reflexivity].
  destruct (chemicals db); reflexivity.
Qed.

(** The rows of the join are made of an association of the formula asked
    for and of the chemical it names. *)
Lemma join_where_in row fcs cs formula_id :
  In row (join_where fcs cs formula_id) ->
  exists fc c, In fc fcs /\ In c cs
    /\ fc_formula_id fc = formula_id /\ fc_chemical_id fc = c_id c
    /\ r_id row = c_id c /\ r_concentration row = fc_concentration fc.
Proof.
  unfold join_where; intros H.
  apply in_flat_map in H as (fc & Hfc & H).
  destruct (Z.eqb_spec (fc_formula_id fc) formula_id) as [E | ]; [ | easy].
  apply in_map_iff in H as (c & <- & Hc).
  apply filter_In in Hc as [Hc Hid]; apply Z.eqb_eq in Hid.
  exists fc, c; simpl; auto 10.
Qed.

End RepositoryFacts.

(** ** Claims about the formula repository *)

(** C4. A data-source failure (the connection cannot be made, or the
    query fails) makes the formula listing and the chemicals-for-formula
    query return the empty list; neither of them ever lets an exception
    out, whatever the state of the store. *)
Theorem data_source_failure_returns_empty (formula_id : Z) (w : World) :
  (connection_fails w \/ formulas_query_fails w ->
     fst (get_all_formulas w) = Ret [])
  /\ (connection_fails w \/ chemicals_query_fails w ->
        fst (get_formula_chemicals formula_id w) = Ret [])
  /\ (forall e, fst (get_all_formulas w) <> Raise e)
  /\ (forall e, fst (get_formula_chemicals formula_id w) <> Raise e).
Proof.
  rewrite RepositoryFacts.get_all_formulas_eq,
    RepositoryFacts.get_formula_chemicals_eq.
  repeat split.
  - intros [[err E] | [[err E] | (db & E & Hf)]]; rewrite E;
      try reflexivity.
    rewrite Hf; reflexivity.
  - intros [[err E] | [[err E] | (db & E & [Hf | Hc])]]; rewrite E;
      try reflexivity.
    + rewrite Hf; reflexivity.
    + rewrite Hc; destruct (formula_chemicals db); reflexivity.
  - intros e; destruct (db_file w) as [err | err | db]; try discriminate.
    destruct (hydroponic_formulas db); discriminate.
  - intros e; destruct (db_file w) as [err | err | db]; try discriminate.
    destruct (formula_chemicals db); [ | discriminate].
    destruct (chemicals db); discriminate.
Qed.

Lemma data_source_failure_witness :
  fst (get_all_formulas
         (Sample.world (Unopenable (lit "unable to open database file")) []))
    = Ret []
  /\ fst (get_formula_chemicals 1
            (Sample.world (Opened Sample.broken_catalog) [])) = Ret []
  /\ fst (get_formula_chemicals 1
            (Sample.world (Unreadable (lit "file is not a database")) []))
     = Ret [].
Proof.
  split; [ | split].
  - apply (proj1 (data_source_failure_returns_empty 1 _)).
    left; eexists; reflexivity.
  - apply (proj1 (proj2 (data_source_failure_returns_empty 1 _))).
    right; right; eexists; split; [reflexivity | left; reflexivity].
  - apply (proj1 (proj2 (data_source_failure_returns_empty 1 _))).
    right; left; eexists; reflexivity.
Defined.

(** C5. Whatever the formula id and the store, the chemicals-for-formula
    query returns a list in ascending order of category: each chemical's
    category is at most that of every chemical after it. *)
Theorem chemicals_sorted_by_category (formula_id : Z) (w : World) :
  exists chemicals w',
    get_formula_chemicals formula_id w = (Ret chemicals, w')
    /\ StronglySorted category_le chemicals.
Proof.
  rewrite RepositoryFacts.get_formula_chemicals_eq.
  destruct (db_file w) as [err | err | db].
  - eexists _, _; split; [reflexivity | constructor].
  - eexists _, _; split; [reflexivity | constructor].
  - destruct (formula_chemicals db) as [fcs | ].
    + destruct (chemicals db) as [cs | ].
      * eexists _, _; split; [reflexivity | apply OrderFacts.chemicals_sorted].
      * eexists _, _; split; [reflexivity | constructor].
    + eexists _, _; split; [reflexivity | constructor].
Qed.

(** C6, as the code has it (amended).  Every chemical the query returns
    carries the concentration stored on an association of the formula
    asked for with that chemical, and 0.0 when the stored value is NULL;
    so it is at least zero whenever the stored value is NULL or at least
    zero.  Nothing makes a stored negative value non-negative. *)
Theorem concentration_stored_or_zero (formula_id : Z) (w w' : World)
    (returned : list Chemical) :
  get_formula_chemicals formula_id w = (Ret returned, w') ->
  Forall (stored_concentration formula_id w) returned.
Proof.
  rewrite RepositoryFacts.get_formula_chemicals_eq.
  destruct (db_file w) as [err | err | db] eqn:Edb.
  { intros [= <- _]; constructor. }
  { intros [= <- _]; constructor. }
  destruct (formula_chemicals db) as [fcs | ] eqn:Efc;
    [ | intros [= <- _]; constructor].
  destruct (chemicals db) as [cs | ] eqn:Ecs;
    [ | intros [= <- _]; constructor].
  intros [= <- _]. apply Forall_forall; intros ch Hch.
  apply in_map_iff in Hch as (row & <- & Hrow).
  apply (proj1 (OrderFacts.order_by_ABC_in _ _)) in Hrow.
  apply RepositoryFacts.join_where_in in Hrow
    as (fc & c & Hfc & Hc & Hf & Hid & Hrid & Hconc).
  exists db, fcs, fc; simpl; rewrite Hconc, Hrid, Hid.
  repeat split; auto.
  destruct (fc_concentration fc); auto.
Qed.

Lemma concentration_stored_or_zero_witness :
  get_formula_chemicals 2 (Sample.world (Opened Sample.catalog) [])
    = (Ret [Sample.chelated_iron], Sample.world (Opened Sample.catalog) [])
  /\ Forall
       (stored_concentration 2 (Sample.world (Opened Sample.catalog) []))
       [Sample.chelated_iron].
Proof.
  assert (E : get_formula_chemicals 2 (Sample.world (Opened Sample.catalog) [])
              = (Ret [Sample.chelated_iron],
                 Sample.world (Opened Sample.catalog) []))
    by (vm_compute; reflexivity).
  split; [exact E | exact (concentration_stored_or_zero _ _ _ _ E)].
Defined.

(** C6, as stated, fails: a negative concentration in the store comes
    back as it is. *)
Lemma negative_concentration_returned :
  fst (get_formula_chemicals 1
         (Sample.world (Opened Sample.negative_catalog) []))
    = Ret [ {| chemical_id := 10;
               chemical_name := lit "Potassium nitrate";
               chemical_formula := lit "KNO3";
               category := lit "B";
               concentration := PyFloat.of_Z (-25) |} ]
  /\ PyFloat.ltb (PyFloat.of_Z (-25)) PyFloat.zero = true
  /\ PyFloat.geb (PyFloat.of_Z (-25)) PyFloat.zero = false.
Proof. vm_compute; auto. Qed.

(** ** The dosage computation and its report *)

Module ReportFacts.

Lemma fold_add_row_rows (f : Chemical -> list pystr) chems t :
  rows (fold_left (fun table chemical => add_row table (f chemical)) chems t)
  = rows t ++ map f chems.
Proof.
  revert t; induction chems as [ | ch chems IH]; intros t; simpl.
  - now rewrite app_nil_r.
  - rewrite IH; simpl. now rewrite <- app_assoc.
Qed.

Lemma report_table_rows chems v d :
  rows (report_table chems v d) = map (fun ch => dose_row ch v d) chems.
Proof. unfold report_table; now rewrite fold_add_row_rows. Qed.

Lemma process_formula_eq table_str formula_id v d formulas w :
  process_formula table_str formula_id v d formulas w =
  match find (fun f => id f =? formula_id) formulas with
  | None =>
      (Ret (lit "错误：未找到 ID 为 " ++ PyStr.of_int formula_id ++ lit " 的配方"), w)
  | Some selected =>
      match get_formula_chemicals formula_id w with
      | (Ret [], w') =>
          (Ret (lit "错误：配方 ID " ++ PyStr.of_int formula_id
                ++ lit " 未关联任何化合物"), w')
      | (Ret returned, w') =>
          (Ret (report_header selected v d
                ++ table_str (report_table returned v d) ++ nl), w')
      | (Raise e, w') => (Raise e, w')
      end
  end.
Proof.
  unfold process_formula.
  destruct (find _ formulas) as [selected | ]; [ | reflexivity].
  unfold bind.
  destruct (get_formula_chemicals formula_id w) as [[[ | ch returned] | e] w'];
    reflexivity.
Qed.

Lemma get_formula_chemicals_world formula_id w :
  db_file (snd (get_formula_chemicals formula_id w)) = db_file w
  /\ stdin (snd (get_formula_chemicals formula_id w)) = stdin w.
Proof.
  rewrite RepositoryFacts.get_formula_chemicals_eq.
  destruct (db_file w) as [err | err | db] eqn:E;
    [now rewrite <- E | now rewrite <- E | ].
  destruct (formula_chemicals db); [ | now rewrite <- E].
  destruct (chemicals db); now rewrite <- E.
Qed.

Lemma get_formula_chemicals_store formula_id w1 w2 :
  db_file w1 = db_file w2 ->
  fst (get_formula_chemicals formula_id w1)
  = fst (get_formula_chemicals formula_id w2).
Proof.
  intros E; rewrite !RepositoryFacts.get_formula_chemicals_eq, E.
  destruct (db_file w2) as [err | err | db]; [reflexivity | reflexivity | ].
  destruct (formula_chemicals db); [ | reflexivity].
  destruct (chemicals db); reflexivity.
Qed.

End ReportFacts.

(** ** Claims about the dosage computation *)

(** C1, as the code has it (amended).  For the chemical at any position
    of the list the computation goes through, with a concentration at
    least zero and a volume and a dilution factor that are positive real
    numbers (finite floats): the mass is
    concentration * volume * factor / 1000 in double arithmetic, it is at
    least zero, and the row at that position shows it to four decimals. *)
Theorem mass_of_each_row (chems : list Chemical) (v d : float)
    (i : nat) (ch : Chemical) :
  nth_error chems i = Some ch ->
  PyFloat.geb (concentration ch) PyFloat.zero = true ->
  PyFloat.gtb v PyFloat.zero = true -> is_finite v = true ->
  PyFloat.gtb d PyFloat.zero = true -> is_finite d = true ->
  mass ch v d
    = PyFloat.div (PyFloat.mul (PyFloat.mul (concentration ch) v) d)
        (PyFloat.of_Z 1000)
  /\ PyFloat.geb (mass ch v d) PyFloat.zero = true
  /\ exists row,
       nth_error (rows (report_table chems v d)) i = Some row
       /\ nth_error row 4 = Some (format_f 4 (mass ch v d)).
Proof.
  intros Hi Hc Hv Hvf Hd Hdf.
  split; [reflexivity | split].
  - apply FloatFacts.nonneg_iff.
    unfold mass. apply FloatFacts.div_nonneg; [ | reflexivity].
    apply FloatFacts.mul_nonneg; [ | now apply FloatFacts.positive_real_iff].
    apply FloatFacts.mul_nonneg; [ | now apply FloatFacts.positive_real_iff].
    now apply FloatFacts.nonneg_iff.
  - exists (dose_row ch v d); split; [ | reflexivity].
    rewrite ReportFacts.report_table_rows, nth_error_map, Hi; reflexivity.
Qed.

Lemma mass_of_each_row_witness :
  nth_error [Sample.chelated_iron; Sample.potassium_nitrate] 1
    = Some Sample.potassium_nitrate
  /\ mass Sample.potassium_nitrate (PyFloat.of_Z 2) (PyFloat.of_Z 10)
     = PyFloat.div
         (PyFloat.mul
            (PyFloat.mul (concentration Sample.potassium_nitrate)
               (PyFloat.of_Z 2))
            (PyFloat.of_Z 10))
         (PyFloat.of_Z 1000)
  /\ PyFloat.geb
       (mass Sample.potassium_nitrate (PyFloat.of_Z 2) (PyFloat.of_Z 10))
       PyFloat.zero = true
  /\ exists row,
       nth_error
         (rows (report_table [Sample.chelated_iron; Sample.potassium_nitrate]
                  (PyFloat.of_Z 2) (PyFloat.of_Z 10))) 1 = Some row
       /\ nth_error row 4
          = Some (format_f 4
                    (mass Sample.potassium_nitrate (PyFloat.of_Z 2)
                       (PyFloat.of_Z 10))).
Proof.
  split; [reflexivity | ].
  apply (mass_of_each_row
           [Sample.chelated_iron; Sample.potassium_nitrate]
           (PyFloat.of_Z 2) (PyFloat.of_Z 10) 1 Sample.potassium_nitrate);
    reflexivity.
Defined.

(** C1, as stated, fails: an infinite volume is positive, and with the
    concentration 0.0 that stands for NULL the product is a NaN, which is
    not at least zero.  The volume prompt lets [inf] through. *)
Lemma mass_nan_at_infinite_volume :
  PyFloat.geb (concentration Sample.chelated_iron) PyFloat.zero = true
  /\ PyFloat.gtb (S754_infinity false) PyFloat.zero = true
  /\ PyFloat.gtb PyFloat.one PyFloat.zero = true
  /\ mass Sample.chelated_iron (S754_infinity false) PyFloat.one = S754_nan
  /\ PyFloat.geb
       (mass Sample.chelated_iron (S754_infinity false) PyFloat.one)
       PyFloat.zero = false
  /\ fst (get_valid_float Sample.float_of Sample.str_of
            (lit "请输入体积（L，需大于 0）: ") PyFloat.floor_0_0001
            (Sample.world (Opened Sample.catalog) [lit "inf"]))
     = Ret (S754_infinity false).
Proof. vm_compute; auto 10. Qed.

(** C2. On every row of a report the stock-solution cell says yes exactly
    when the dilution factor is above 1 (and no exactly when it is not):
    the cell is the same on all rows, whatever the chemicals and their
    concentrations are. *)
Theorem stock_flag_on_every_row (chems : list Chemical) (v d : float)
    (row : list pystr) :
  In row (rows (report_table chems v d)) ->
  nth_error row 5 = Some (stock_solution d)
  /\ (nth_error row 5 = Some (lit "是") <-> PyFloat.gtb d PyFloat.one = true)
  /\ (nth_error row 5 = Some (lit "否") <-> PyFloat.gtb d PyFloat.one = false)
  /\ is_stock_solution d = PyFloat.gtb d PyFloat.one.
Proof.
  rewrite ReportFacts.report_table_rows.
  intros Hrow; apply in_map_iff in Hrow as (ch & <- & _).
  unfold dose_row, stock_solution, is_stock_solution; simpl.
  destruct (PyFloat.gtb d PyFloat.one); repeat split;
    try reflexivity; try discriminate; intros [= H]; vm_compute in H;
    discriminate.
Qed.

Lemma stock_flag_on_every_row_witness :
  In (dose_row Sample.potassium_nitrate (PyFloat.of_Z 2) (PyFloat.of_Z 10))
     (rows (report_table [Sample.chelated_iron; Sample.potassium_nitrate]
              (PyFloat.of_Z 2) (PyFloat.of_Z 10)))
  /\ nth_error
       (dose_row Sample.potassium_nitrate (PyFloat.of_Z 2) (PyFloat.of_Z 10)) 5
     = Some (lit "是").
Proof.
  assert (H : In (dose_row Sample.potassium_nitrate (PyFloat.of_Z 2)
                    (PyFloat.of_Z 10))
                (rows (report_table
                         [Sample.chelated_iron; Sample.potassium_nitrate]
                         (PyFloat.of_Z 2) (PyFloat.of_Z 10))))
    by (right; left; reflexivity).
  split; [exact H | ].
  apply (proj2 (proj1 (proj2 (stock_flag_on_every_row _ _ _ _ H)))).
  reflexivity.
Defined.

(** C8. For a formula of the catalog whose chemicals-for-formula query
    returns the empty list, the processing step returns the message that
    no chemical is associated; the volume, the dilution factor and the
    table renderer have no part in the result: no mass is computed and no
    table is built. *)
Theorem no_chemicals_message (table_str : PrettyTable -> pystr)
    (formula_id : Z) (v d : float) (formulas : list Formula)
    (w w' : World) :
  (exists f, In f formulas /\ id f = formula_id) ->
  get_formula_chemicals formula_id w = (Ret [], w') ->
  process_formula table_str formula_id v d formulas w
    = (Ret (lit "错误：配方 ID " ++ PyStr.of_int formula_id
            ++ lit " 未关联任何化合物"), w')
  /\ forall table_str' v' d',
       process_formula table_str' formula_id v' d' formulas w
       = process_formula table_str formula_id v d formulas w.
Proof.
  intros (f & Hf & Hid) Hc.
  assert (Hfind : exists selected,
             find (fun f => id f =? formula_id) formulas = Some selected).
  { destruct (find (fun f => id f =? formula_id) formulas) eqn:E; eauto.
    apply (find_none _ _ E) in Hf. apply Z.eqb_neq in Hf. contradiction. }
  destruct Hfind as [selected Hfind].
  split; [ | intros table_str' v' d'];
    rewrite !ReportFacts.process_formula_eq, Hfind, Hc; reflexivity.
Qed.

Lemma no_chemicals_message_witness :
  (exists f, In f Sample.formulas /\ id f = 3)
  /\ get_formula_chemicals 3 (Sample.world (Opened Sample.catalog) [])
     = (Ret [], Sample.world (Opened Sample.catalog) [])
  /\ process_formula Sample.bars 3 (PyFloat.of_Z 2) (PyFloat.of_Z 10)
       Sample.formulas (Sample.world (Opened Sample.catalog) [])
     = (Ret (lit "错误：配方 ID " ++ PyStr.of_int 3
             ++ lit " 未关联任何化合物"),
        Sample.world (Opened Sample.catalog) []).
Proof.
  assert (Hf : exists f, In f Sample.formulas /\ id f = 3).
  { exists {| id := 3; name := lit "Empty" |}; split; [ | reflexivity].
    right; right; left; reflexivity. }
  assert (Hc : get_formula_chemicals 3 (Sample.world (Opened Sample.catalog) [])
               = (Ret [], Sample.world (Opened Sample.catalog) []))
    by (vm_compute; reflexivity).
  split; [exact Hf | split; [exact Hc | ]].
  exact (proj1 (no_chemicals_message Sample.bars 3 (PyFloat.of_Z 2)
                  (PyFloat.of_Z 10) Sample.formulas _ _ Hf Hc)).
Defined.

(** C9. Running the dosage computation a second time, in the world the
    first run left, with the same arguments, returns the same result: the
    first run leaves the store and the pending input as they were (it only
    writes its diagnostic, if any, to the terminal). *)
Theorem process_formula_repeatable (table_str : PrettyTable -> pystr)
    (formula_id : Z) (v d : float) (formulas : list Formula) (w : World) :
  let first := process_formula table_str formula_id v d formulas w in
  let second := process_formula table_str formula_id v d formulas (snd first) in
  fst second = fst first
  /\ db_file (snd first) = db_file w
  /\ stdin (snd first) = stdin w.
Proof.
  assert (Hw : db_file (snd (process_formula table_str formula_id v d formulas w))
               = db_file w
               /\ stdin (snd (process_formula table_str formula_id v d formulas w))
                  = stdin w).
  { rewrite ReportFacts.process_formula_eq.
    destruct (find _ formulas); [ | now split].
    pose proof (ReportFacts.get_formula_chemicals_world formula_id w) as H.
    destruct (get_formula_chemicals formula_id w) as [[[ | ch l] | e] w1];
      exact H. }
  cbv zeta. split; [ | exact Hw].
  destruct Hw as [Hdb _].
  pose proof (ReportFacts.get_formula_chemicals_store formula_id _ _ Hdb) as Hs.
  remember (snd (process_formula table_str formula_id v d formulas w)) as w1.
  rewrite !ReportFacts.process_formula_eq.
  destruct (find _ formulas); [ | reflexivity].
  destruct (get_formula_chemicals formula_id w1) as [r2 w2],
    (get_formula_chemicals formula_id w) as [r1 w0].
  simpl in Hs; subst r2.
  destruct r1 as [[ | ch l] | e]; reflexivity.
Qed.

(** C10. For a formula of the catalog with a non-empty list of chemicals,
    the report is the header followed by the rendering of a table that
    has one row per chemical of the list, in the order of the list: the
    row at each position is the one made from the chemical at that
    position, starting with its category and its name. *)
Theorem one_row_per_chemical (table_str : PrettyTable -> pystr)
    (formula_id : Z) (v d : float) (formulas : list Formula)
    (selected : Formula) (w w' : World) (returned : list Chemical) :
  find (fun f => id f =? formula_id) formulas = Some selected ->
  get_formula_chemicals formula_id w = (Ret returned, w') ->
  returned <> [] ->
  process_formula table_str formula_id v d formulas w
    = (Ret (report_header selected v d
            ++ table_str (report_table returned v d) ++ nl), w')
  /\ List.length (rows (report_table returned v d)) = List.length returned
  /\ rows (report_table returned v d)
     = map (fun ch => dose_row ch v d) returned
  /\ forall i ch,
       nth_error returned i = Some ch ->
       exists row,
         nth_error (rows (report_table returned v d)) i = Some row
         /\ row = dose_row ch v d
         /\ nth_error row 0 = Some (category ch)
         /\ nth_error row 1 = Some (chemical_name ch).
Proof.
  intros Hfind Hc Hne.
  rewrite ReportFacts.process_formula_eq, Hfind, Hc,
    ReportFacts.report_table_rows.
  repeat split.
  - destruct returned; [contradiction | reflexivity].
  - apply length_map.
  - intros i ch Hi. exists (dose_row ch v d).
    rewrite nth_error_map, Hi; repeat split.
Qed.

Lemma one_row_per_chemical_witness :
  find (fun f => id f =? 1) Sample.formulas
    = Some {| id := 1; name := lit "Hoagland" |}
  /\ get_formula_chemicals 1 (Sample.world (Opened Sample.catalog) [])
     = (Ret [Sample.calcium_nitrate; Sample.potassium_nitrate],
        Sample.world (Opened Sample.catalog) [])
  /\ rows (report_table [Sample.calcium_nitrate; Sample.potassium_nitrate]
             (PyFloat.of_Z 2) (PyFloat.of_Z 10))
     = [ [lit "A"; lit "Calcium nitrate"; lit "Ca(NO3)2"; lit "50.00";
          lit "1.0000"; lit "是"];
         [lit "B"; lit "Potassium nitrate"; lit "KNO3"; lit "150.00";
          lit "3.0000"; lit "是"] ].
Proof.
  assert (Hfind : find (fun f => id f =? 1) Sample.formulas
                  = Some {| id := 1; name := lit "Hoagland" |})
    by reflexivity.
  assert (Hc : get_formula_chemicals 1 (Sample.world (Opened Sample.catalog) [])
               = (Ret [Sample.calcium_nitrate; Sample.potassium_nitrate],
                  Sample.world (Opened Sample.catalog) []))
    by (vm_compute; reflexivity).
  split; [exact Hfind | split; [exact Hc | ]].
  rewrite (proj1 (proj2 (proj2
             (one_row_per_chemical Sample.bars 1 (PyFloat.of_Z 2)
                (PyFloat.of_Z 10) Sample.formulas _ _ _ _ Hfind Hc
                ltac:(discriminate))))).
  vm_compute; reflexivity.
Defined.

(** ** Texts, integers and comparisons *)

Module StrFacts.

Lemma eqb_eq s t : PyStr.eqb s t = true <-> s = t.
Proof.
  revert t; induction s as [ | a s IH]; intros [ | b t]; simpl;
    try (split; congruence).
  rewrite andb_true_iff, N.eqb_eq, IH. split.
  - intros [-> ->]; reflexivity.
  - intros [= -> ->]; auto.
Qed.

Lemma eqb_neq s t : PyStr.eqb s t = false <-> s <> t.
Proof.
  rewrite <- eqb_eq. destruct (PyStr.eqb s t); split; congruence.
Qed.

Lemma mem_in s l : PyStr.mem s l = true <-> In s l.
Proof.
  unfold PyStr.mem. rewrite existsb_exists. split.
  - intros (t & Ht & E). apply eqb_eq in E. now subst.
  - intros H. exists s; split; [exact H | now apply eqb_eq].
Qed.

Lemma mem_not_in s l : PyStr.mem s l = false <-> ~ In s l.
Proof.
  rewrite <- mem_in. destruct (PyStr.mem s l); split; congruence.
Qed.

Lemma to_string_of_string s : PyStr.to_string (PyStr.of_string s) = Some s.
Proof.
  induction s as [ | a s IH]; simpl; [reflexivity | ].
  assert (H : (N_of_ascii a <? 256)%N = true).
  { apply N.ltb_lt, N_ascii_bounded. }
  now rewrite H, IH, ascii_N_embedding.
Qed.

(** [int(str(n)) == n] *)
Lemma to_int_of_int n : PyStr.to_int (PyStr.of_int n) = Some n.
Proof.
  unfold PyStr.to_int, PyStr.of_int.
  rewrite to_string_of_string, DecimalString.NilZero.isi.
  - simpl. now rewrite DecimalZ.of_to.
  - destruct n as [ | p | p]; simpl; try discriminate.
    intros [= H]. now apply DecimalPos.Unsigned.to_uint_nonnil in H.
  - destruct n as [ | p | p]; simpl; try discriminate.
    intros [= H]. now apply DecimalPos.Unsigned.to_uint_nonnil in H.
Qed.

(** The text of an integer starts with a digit or a minus sign. *)
Lemma of_int_head n :
  exists c rest, PyStr.of_int n = c :: rest /\ (c = 45 \/ 48 <= c <= 57)%N.
Proof.
  unfold PyStr.of_int.
  destruct (Z.to_int n) as [d | d]; simpl.
  - destruct d; simpl; eexists _, _; (split; [reflexivity | right; lia]).
  - eexists _, _; split; [reflexivity | left; reflexivity].
Qed.

Lemma of_int_not_quit n :
  PyStr.eqb (PyStr.lower (PyStr.of_int n)) (lit "q") = false.
Proof.
  destruct (of_int_head n) as (c & rest & -> & Hc).
  apply eqb_neq. simpl. intros [= H _].
  unfold PyStr.lower_cp in H.
  destruct ((65 <=? c) && (c <=? 90))%N eqn:E1.
  - apply andb_true_iff in E1 as [E1 E2].
    apply N.leb_le in E1. lia.
  - destruct ((192 <=? c) && (c <=? 222) && negb (c =? 215))%N eqn:E2; [ | lia].
    apply andb_true_iff in E2 as [E2 _].
    apply andb_true_iff in E2 as [E2 _]. apply N.leb_le in E2. lia.
Qed.

(** Only [q] and [Q] lower to [q]. *)
Lemma lower_is_q s :
  PyStr.eqb (PyStr.lower s) (lit "q") = true <-> s = lit "q" \/ s = lit "Q".
Proof.
  rewrite eqb_eq. split.
  - destruct s as [ | c [ | c' s]]; simpl; try discriminate.
    intros [= H]. unfold PyStr.lower_cp in H.
    destruct ((65 <=? c) && (c <=? 90))%N eqn:E1.
    + right. assert (Hc : c = 81%N) by lia. now subst.
    + destruct ((192 <=? c) && (c <=? 222) && negb (c =? 215))%N eqn:E2.
      * apply andb_true_iff in E2 as [E2 _].
        apply andb_true_iff in E2 as [E2 _]. apply N.leb_le in E2. lia.
      * left. now subst.
  - intros [-> | ->]; reflexivity.
Qed.

End StrFacts.

(** ** The prompts *)

Module PromptFacts.

Lemma compare_cont_swap (p q : positive) :
  Pos.compare_cont Eq q p = CompOpp (Pos.compare_cont Eq p q).
Proof. symmetry; apply (Pos.compare_cont_antisym p q Eq). Qed.

Lemma compare_antisym x y :
  SFcompare y x = option_map CompOpp (SFcompare x y).
Proof.
  destruct x as [sx | sx | | sx mx ex], y as [sy | sy | | sy my ey];
    try destruct sx; try destruct sy; simpl; try reflexivity;
    rewrite (Z.compare_antisym ey ex);
    destruct (ey ?= ex); simpl; try reflexivity;
    now rewrite (compare_cont_swap mx my).
Qed.

(** A value at or above the floor is not below it. *)
Lemma geb_not_ltb value min_value :
  PyFloat.geb value min_value = true -> PyFloat.ltb value min_value = false.
Proof.
  unfold PyFloat.geb, PyFloat.leb, PyFloat.ltb, SFleb, SFltb.
  rewrite (compare_antisym min_value value).
  destruct (SFcompare min_value value) as [[ | | ] | ]; simpl; congruence.
Qed.

Lemma for_each_print {A} (g : A -> pystr) xs w :
  exists w', for_each xs (fun x => print (g x)) w = (Ret tt, w')
             /\ db_file w' = db_file w /\ stdin w' = stdin w.
Proof.
  revert w; induction xs as [ | x xs IH]; intros w; simpl.
  - exists w; auto.
  - unfold bind at 1, print at 1.
    destruct (IH (write (g x ++ nl) w)) as (w' & E & Hdb & Hin).
    exists w'; auto.
Qed.

Lemma display_formulas_ok formulas w :
  exists w', display_formulas formulas w = (Ret tt, w')
             /\ db_file w' = db_file w /\ stdin w' = stdin w.
Proof.
  unfold display_formulas.
  destruct formulas as [ | f formulas]; [eexists; now split | ].
  set (l := f :: formulas).
  match goal with
  | |- context [bind (print ?a) (fun _ => bind (print ?b) (fun _ => bind (print ?c) (fun _ => for_each l ?body)))] =>
      destruct (for_each_print
                  (fun formula =>
                     PyStr.of_int (id formula) ++ tab ++ ljust 12 (name formula))
                  l (write (c ++ nl) (write (b ++ nl) (write (a ++ nl) w))))
        as (w' & E & Hdb & Hin)
  end.
  exists w'; split; [exact E | auto].
Qed.

Lemma display_formulas_eq formulas w :
  display_formulas formulas w = (Ret tt, snd (display_formulas formulas w))
  /\ db_file (snd (display_formulas formulas w)) = db_file w
  /\ stdin (snd (display_formulas formulas w)) = stdin w.
Proof.
  destruct (display_formulas_ok formulas w) as (w' & -> & Hdb & Hin); auto.
Qed.

End PromptFacts.

Module LoopFacts.

Lemma input_eq prompt w line rest :
  stdin w = line :: rest -> input prompt w = (Ret line, asked prompt rest w).
Proof. unfold input; simpl; intros ->; reflexivity. Qed.

(** The first turn of the float prompt, on the next pending line. *)
Lemma get_valid_float_turn py_float float_str prompt min_value w line rest :
  stdin w = line :: rest ->
  get_valid_float py_float float_str prompt min_value w =
  match py_float (strip line) with
  | Some value =>
      if PyFloat.ltb value min_value then
        get_valid_float py_float float_str prompt min_value
          (write ((lit "输入必须大于或等于 " ++ float_str min_value) ++ nl)
             (asked prompt rest w))
      else (Ret value, asked prompt rest w)
  | None =>
      get_valid_float py_float float_str prompt min_value
        (write (lit "请输入有效的数字" ++ nl) (asked prompt rest w))
  end.
Proof.
  intros E. unfold get_valid_float at 1. rewrite E.
  cbn [List.length get_valid_float_loop].
  unfold bind at 1. rewrite (input_eq prompt w line rest E).
  destruct (py_float (strip line)) as [value | ]; [ | reflexivity].
  destruct (PyFloat.ltb value min_value); reflexivity.
Qed.

(** The first turn of the formula prompt, on the next pending line. *)
Lemma get_valid_formula_id_turn formulas w line rest :
  stdin w = line :: rest ->
  get_valid_formula_id formulas w =
  let shown := snd (display_formulas formulas w) in
  if PyStr.eqb (lower (strip line)) (lit "q") then
    (Ret None, write (lit "程序退出" ++ nl) (asked formula_id_prompt rest shown))
  else if PyStr.mem (strip line) (formula_ids_of formulas) then
    match PyStr.to_int (strip line) with
    | Some n => (Ret (Some n), asked formula_id_prompt rest shown)
    | None => (Raise (ValueError (lit "invalid literal for int()")),
               asked formula_id_prompt rest shown)
    end
  else
    get_valid_formula_id formulas
      (write (invalid_id_message (formula_ids_of formulas) ++ nl)
         (asked formula_id_prompt rest shown)).
Proof.
  intros E. unfold get_valid_formula_id at 1. rewrite E.
  cbn [List.length get_valid_formula_id_loop].
  destruct (PromptFacts.display_formulas_eq formulas w) as (Ed & _ & Hin).
  unfold bind at 1. rewrite Ed.
  assert (E' : stdin (snd (display_formulas formulas w)) = line :: rest)
    by now rewrite Hin.
  unfold bind at 1. rewrite (input_eq formula_id_prompt _ line rest E').
  cbv zeta.
  destruct (PyStr.eqb (lower (strip line)) (lit "q")); [reflexivity | ].
  destruct (PyStr.mem (strip line) (formula_ids_of formulas)).
  - destruct (PyStr.to_int (strip line)); reflexivity.
  - reflexivity.
Qed.

End LoopFacts.

Module FuelFacts.

(** The loops never run out of turns: any bound above the number of
    pending lines gives the same run. *)
Lemma get_valid_float_loop_fuel py_float float_str prompt min_value fuel w :
  (List.length (stdin w) < fuel)%nat ->
  get_valid_float_loop py_float float_str fuel prompt min_value w
  = get_valid_float py_float float_str prompt min_value w.
Proof.
  revert w; induction fuel as [ | fuel IH]; intros w Hlt; [lia | ].
  destruct (stdin w) as [ | line rest] eqn:E.
  - unfold get_valid_float; rewrite E.
    cbn [List.length get_valid_float_loop].
    unfold bind, input; cbn [write stdin]; rewrite E; reflexivity.
  - rewrite (LoopFacts.get_valid_float_turn py_float float_str prompt
               min_value w line rest E).
    cbn [get_valid_float_loop].
    unfold bind at 1. rewrite (LoopFacts.input_eq prompt w line rest E).
    simpl in Hlt.
    destruct (py_float (strip line)) as [value | ].
    + destruct (PyFloat.ltb value min_value); [ | reflexivity].
      unfold bind at 1, print. apply IH. simpl; lia.
    + unfold bind at 1, print. apply IH. simpl; lia.
Qed.

Lemma get_valid_formula_id_loop_eof formulas formula_ids fuel w :
  stdin w = [] ->
  get_valid_formula_id_loop (S fuel) formulas formula_ids w
  = (Raise EOFError,
     write formula_id_prompt (snd (display_formulas formulas w))).
Proof.
  intros E.
  destruct (PromptFacts.display_formulas_eq formulas w) as (Ed & _ & Hin).
  cbn [get_valid_formula_id_loop].
  unfold bind at 1; rewrite Ed.
  unfold bind at 1, input; cbn [write stdin]; rewrite Hin, E; reflexivity.
Qed.

Lemma get_valid_formula_id_loop_fuel formulas fuel w :
  (List.length (stdin w) < fuel)%nat ->
  get_valid_formula_id_loop fuel formulas (formula_ids_of formulas) w
  = get_valid_formula_id formulas w.
Proof.
  revert w; induction fuel as [ | fuel IH]; intros w Hlt; [lia | ].
  destruct (PromptFacts.display_formulas_eq formulas w) as (Ed & _ & Hin).
  destruct (stdin w) as [ | line rest] eqn:E.
  - unfold get_valid_formula_id; rewrite E.
    cbn [List.length]. now rewrite !get_valid_formula_id_loop_eof.
  - rewrite (LoopFacts.get_valid_formula_id_turn formulas w line rest E).
    cbn [get_valid_formula_id_loop].
    unfold bind at 1; rewrite Ed.
    unfold bind at 1.
    rewrite (LoopFacts.input_eq formula_id_prompt _ line rest Hin).
    simpl in Hlt. cbv zeta.
    destruct (PyStr.eqb (lower (strip line)) (lit "q")); [reflexivity | ].
    destruct (PyStr.mem (strip line) (formula_ids_of formulas)).
    + destruct (PyStr.to_int (strip line)); reflexivity.
    + unfold bind at 1, print. apply IH. simpl; lia.
Qed.

End FuelFacts.

(** ** Claims about the prompts *)

(** C3, as the code has it (amended).  When the next line typed at a
    numeric prompt parses to a value: a value strictly below the floor is
    rejected (the message is written and the prompt starts over on the
    lines that follow), and a value at or above the floor, the floor
    itself included, is returned; so is any value that is not below the
    floor. *)
Theorem float_prompt_floor (py_float : pystr -> option float)
    (float_str : float -> pystr) (prompt : pystr) (min_value : float)
    (w : World) (line : pystr) (rest : list pystr) (value : float) :
  stdin w = line :: rest ->
  py_float (strip line) = Some value ->
  (PyFloat.ltb value min_value = true ->
     get_valid_float py_float float_str prompt min_value w
     = get_valid_float py_float float_str prompt min_value
         (write ((lit "输入必须大于或等于 " ++ float_str min_value) ++ nl)
            (asked prompt rest w)))
  /\ (PyFloat.geb value min_value = true ->
        get_valid_float py_float float_str prompt min_value w
        = (Ret value, asked prompt rest w))
  /\ (PyFloat.ltb value min_value = false ->
        get_valid_float py_float float_str prompt min_value w
        = (Ret value, asked prompt rest w)).
Proof.
  intros E Hp.
  rewrite (LoopFacts.get_valid_float_turn py_float float_str prompt
             min_value w line rest E), Hp.
  repeat split.
  - intros ->; reflexivity.
  - intros H; apply PromptFacts.geb_not_ltb in H; rewrite H; reflexivity.
  - intros ->; reflexivity.
Qed.

Lemma float_prompt_floor_witness :
  stdin (Sample.world (Opened Sample.catalog) [lit " 0 "; lit "2"])
    = [lit " 0 "; lit "2"]
  /\ Sample.float_of (strip (lit " 0 ")) = Some PyFloat.zero
  /\ get_valid_float Sample.float_of Sample.str_of (lit "> ")
       PyFloat.floor_0_0001
       (Sample.world (Opened Sample.catalog) [lit " 0 "; lit "2"])
     = get_valid_float Sample.float_of Sample.str_of (lit "> ")
         PyFloat.floor_0_0001
         (write ((lit "输入必须大于或等于 "
                  ++ Sample.str_of PyFloat.floor_0_0001) ++ nl)
            (asked (lit "> ") [lit "2"]
               (Sample.world (Opened Sample.catalog) [lit " 0 "; lit "2"]))).
Proof.
  split; [reflexivity | split; [reflexivity | ]].
  apply (proj1 (float_prompt_floor Sample.float_of Sample.str_of (lit "> ")
                  PyFloat.floor_0_0001
                  (Sample.world (Opened Sample.catalog) [lit " 0 "; lit "2"])
                  (lit " 0 ") [lit "2"] PyFloat.zero
                  eq_refl eq_refl)).
  reflexivity.
Defined.

(** C3, as stated, fails: the floor itself, 0.0001, is at or below the
    floor, and the prompt returns it at once instead of asking again. *)
Lemma floor_value_accepted :
  PyFloat.leb PyFloat.floor_0_0001 PyFloat.floor_0_0001 = true
  /\ Sample.float_of (strip (lit "0.0001")) = Some PyFloat.floor_0_0001
  /\ get_valid_float Sample.float_of Sample.str_of (lit "> ")
       PyFloat.floor_0_0001
       (Sample.world (Opened Sample.catalog) [lit "0.0001"; lit "2"])
     = (Ret PyFloat.floor_0_0001,
        {| db_file := Opened Sample.catalog; stdin := [lit "2"];
           stdout := [lit "> "] |}).
Proof. vm_compute; auto. Qed.

(** With nothing left to read, the formula prompt ends on [EOFError]. *)
Lemma get_valid_formula_id_eof (formulas : list Formula) (w : World) :
  stdin w = [] -> fst (get_valid_formula_id formulas w) = Raise EOFError.
Proof.
  intros E. unfold get_valid_formula_id. rewrite E.
  cbn [List.length get_valid_formula_id_loop].
  destruct (PromptFacts.display_formulas_eq formulas w) as (Ed & _ & Hin).
  unfold bind at 1. rewrite Ed.
  unfold bind at 1, input. cbn [write stdin]. rewrite Hin, E. reflexivity.
Qed.

(** C7, as the code has it (amended).  The next line typed at the formula
    prompt is judged once the blanks around it are removed.  If what
    remains is [q] or [Q], the prompt returns the no-selection value.  If
    it is the text of the id of a known formula, that id is returned.
    Otherwise (the empty text included) the line is rejected: the list of
    valid ids is written and the prompt starts over on the lines that
    follow.  So a selection made on a single pending line is always the id
    of a known formula whose text is that line without its blanks. *)
Theorem formula_prompt_turn (formulas : list Formula) (w : World)
    (line : pystr) (rest : list pystr) :
  stdin w = line :: rest ->
  let shown :=
    asked formula_id_prompt rest (snd (display_formulas formulas w)) in
  let retry :=
    get_valid_formula_id formulas
      (write (invalid_id_message (formula_ids_of formulas) ++ nl) shown) in
  (strip line = lit "q" \/ strip line = lit "Q" ->
     get_valid_formula_id formulas w
     = (Ret None, write (lit "程序退出" ++ nl) shown))
  /\ (forall f, In f formulas -> strip line = PyStr.of_int (id f) ->
        get_valid_formula_id formulas w = (Ret (Some (id f)), shown))
  /\ (strip line <> lit "q" -> strip line <> lit "Q" ->
      (forall f, In f formulas -> strip line <> PyStr.of_int (id f)) ->
        get_valid_formula_id formulas w = retry)
  /\ (strip line = [] -> get_valid_formula_id formulas w = retry)
  /\ (rest = [] ->
      forall n w', get_valid_formula_id formulas w = (Ret (Some n), w') ->
        strip line = PyStr.of_int n /\ exists f, In f formulas /\ id f = n).
Proof.
  intros E shown retry.
  pose proof (LoopFacts.get_valid_formula_id_turn formulas w line rest E) as T.
  cbv zeta in T. fold shown in T. fold retry in T.
  assert (Hno : strip line <> lit "q" -> strip line <> lit "Q" ->
                (forall f, In f formulas -> strip line <> PyStr.of_int (id f)) ->
                get_valid_formula_id formulas w = retry).
  { intros Hq HQ Hid. rewrite T.
    destruct (PyStr.eqb (lower (strip line)) (lit "q")) eqn:Eq.
    { apply StrFacts.lower_is_q in Eq as [Eq | Eq]; contradiction. }
    destruct (PyStr.mem (strip line) (formula_ids_of formulas)) eqn:Em;
      [ | reflexivity].
    apply StrFacts.mem_in, in_map_iff in Em as (f & Ef & Hf).
    exfalso; apply (Hid f Hf); now rewrite Ef. }
  split; [ | split; [ | split; [exact Hno | split]]].
  - intros Hq. apply StrFacts.lower_is_q in Hq. now rewrite T, Hq.
  - intros f Hf Ef. rewrite T, Ef, StrFacts.of_int_not_quit.
    assert (Em : PyStr.mem (PyStr.of_int (id f)) (formula_ids_of formulas) = true).
    { apply StrFacts.mem_in. unfold formula_ids_of.
      apply in_map_iff; exists f; auto. }
    now rewrite Em, StrFacts.to_int_of_int.
  - intros Ee. apply Hno.
    + rewrite Ee; discriminate.
    + rewrite Ee; discriminate.
    + intros f _. rewrite Ee.
      destruct (StrFacts.of_int_head (id f)) as (c & r & -> & _). discriminate.
  - intros -> n w' R. rewrite T in R.
    destruct (PyStr.eqb (lower (strip line)) (lit "q")); [discriminate | ].
    destruct (PyStr.mem (strip line) (formula_ids_of formulas)) eqn:Em.
    + apply StrFacts.mem_in, in_map_iff in Em as (f & Ef & Hf).
      rewrite <- Ef, StrFacts.to_int_of_int in R.
      injection R as <- _. split; [now rewrite Ef | exists f; auto].
    + exfalso. subst retry.
      assert (Hr : fst (get_valid_formula_id formulas
                          (write (invalid_id_message (formula_ids_of formulas)
                                  ++ nl) shown)) = Raise EOFError)
        by (apply get_valid_formula_id_eof; reflexivity).
      rewrite R in Hr. discriminate.
Qed.

Lemma formula_prompt_turn_witness :
  stdin (Sample.world (Opened Sample.catalog) [lit " 1 "; lit "2"])
    = [lit " 1 "; lit "2"]
  /\ get_valid_formula_id Sample.formulas
       (Sample.world (Opened Sample.catalog) [lit " 1 "; lit "2"])
     = (Ret (Some 1),
        asked formula_id_prompt [lit "2"]
          (snd (display_formulas Sample.formulas
                  (Sample.world (Opened Sample.catalog)
                     [lit " 1 "; lit "2"])))).
Proof.
  split; [reflexivity | ].
  apply (proj1 (proj2
           (formula_prompt_turn Sample.formulas
              (Sample.world (Opened Sample.catalog) [lit " 1 "; lit "2"])
              (lit " 1 ") [lit "2"] eq_refl))
           {| id := 1; name := lit "Hoagland" |}).
  - left; reflexivity.
  - reflexivity.
Defined.

(** C7, as stated, fails: a line with blanks around the text of an id is
    taken as a selection although the line itself is the text of no id of
    the set. *)
Lemma padded_id_accepted :
  ~ In (lit " 1 ") (formula_ids_of Sample.formulas)
  /\ fst (get_valid_formula_id Sample.formulas
            (Sample.world (Opened Sample.catalog) [lit " 1 "]))
     = Ret (Some 1).
Proof.
  split; [ | vm_compute; reflexivity].
  vm_compute. intros [H | [H | [H | []]]]; discriminate.
Qed.

(** ** The scenarios of the specification, run on the sample catalog *)

Module Scenarios.

(** Two chemicals at 150 and 50 mg/L, 1 L, factor 1: 0.15 g and 0.05 g,
    no stock solution. *)
Example direct_use_masses :
  mass Sample.potassium_nitrate PyFloat.one PyFloat.one
    = S754_finite false 5404319552844595 (-55)
  /\ mass Sample.calcium_nitrate PyFloat.one PyFloat.one
     = S754_finite false 7205759403792794 (-57)
  /\ rows (report_table [Sample.calcium_nitrate; Sample.potassium_nitrate]
             PyFloat.one PyFloat.one)
     = [ [lit "A"; lit "Calcium nitrate"; lit "Ca(NO3)2"; lit "50.00";
          lit "0.0500"; lit "否"];
         [lit "B"; lit "Potassium nitrate"; lit "KNO3"; lit "150.00";
          lit "0.1500"; lit "否"] ].
Proof. vm_compute; auto. Qed.

(** The same formula, 2 L, factor 10: 3 g and 1 g, stock solution. *)
Example stock_solution_report :
  fst (process_formula Sample.bars 1 (PyFloat.of_Z 2) (PyFloat.of_Z 10)
         Sample.formulas (Sample.world (Opened Sample.catalog) []))
  = Ret (nl ++ lit "处理结果：" ++ nl
         ++ lit "配方 ID: 1" ++ nl
         ++ lit "配方名称: Hoagland" ++ nl
         ++ lit "输入体积: 2.00 L" ++ nl
         ++ lit "稀释倍数: 10.00x" ++ nl
         ++ nl ++ lit "所需化合物：" ++ nl
         ++ lit "A|Calcium nitrate|Ca(NO3)2|50.00|1.0000|是" ++ nl
         ++ lit "B|Potassium nitrate|KNO3|150.00|3.0000|是" ++ nl
         ++ nl).
Proof. vm_compute; reflexivity. Qed.

(** A formula id that is not in the catalog. *)
Example formula_not_found :
  process_formula Sample.bars 7 (PyFloat.of_Z 2) (PyFloat.of_Z 10)
    Sample.formulas (Sample.world (Opened Sample.catalog) [])
  = (Ret (lit "错误：未找到 ID 为 7 的配方"),
     Sample.world (Opened Sample.catalog) []).
Proof. vm_compute; reflexivity. Qed.

(** No formula at all: the session says so, waits for Enter and ends
    without asking for a formula. *)
Example empty_catalog_session :
  main Sample.float_of Sample.str_of Sample.bars
    (Sample.world (Opened Sample.broken_catalog) [lit ""; lit "1"])
  = (Ret tt,
     {| db_file := Opened Sample.broken_catalog;
        stdin := [lit "1"];
        stdout :=
          [ lit "数据库查询失败: no such table: hydroponic_formulas" ++ nl;
            lit "无法继续：没有查询到配方数据" ++ nl;
            lit "按 Enter 键退出..." ] |}).
Proof. vm_compute; reflexivity. Qed.

(** Lines that select nothing: a negative number and a word that are
    the text of no id, an empty line; then the quit token in capitals. *)
Example rejected_then_quit :
  let run :=
    get_valid_formula_id Sample.formulas
      (Sample.world (Opened Sample.catalog)
         [lit "-5"; lit "abc"; lit ""; lit " Q "; lit "1"]) in
  fst run = Ret None
  /\ stdin (snd run) = [lit "1"]
  /\ List.length
       (filter
          (PyStr.eqb
             (invalid_id_message (formula_ids_of Sample.formulas) ++ nl))
          (stdout (snd run))) = 3%nat.
Proof. vm_compute; auto. Qed.

(** A whole session: a wrong id, then formula 1, a volume below the
    floor, then 2 L at factor 10. *)
Example whole_session :
  let run :=
    main Sample.float_of Sample.str_of Sample.bars
      (Sample.world (Opened Sample.catalog)
         [lit "9"; lit " 1 "; lit "0"; lit "2"; lit "10"; lit ""]) in
  fst run = Ret tt
  /\ stdin (snd run) = []
  /\ exists text,
       fst (process_formula Sample.bars 1 (PyFloat.of_Z 2) (PyFloat.of_Z 10)
              Sample.formulas (Sample.world (Opened Sample.catalog) []))
         = Ret text
       /\ nth_error (List.rev (stdout (snd run))) 2 = Some (text ++ nl).
Proof.
  cbv zeta; split; [vm_compute; reflexivity | split; [vm_compute; reflexivity | ]].
  eexists; split; vm_compute; reflexivity.
Qed.

End Scenarios.

(** * Further properties of the code *)

(** ** The queries *)

Module JoinFacts.

Lemma insert_by_ABC_perm r l : Permutation (insert_by_ABC r l) (r :: l).
Proof.
  induction l as [ | r' l IH]; simpl; [reflexivity | ].
  destruct (sql_leb (r_ABC r') (r_ABC r)); [ | reflexivity].
  rewrite IH. apply perm_swap.
Qed.

Lemma order_by_ABC_perm rows : Permutation (order_by_ABC rows) rows.
Proof.
  unfold order_by_ABC.
  assert (H : forall acc,
             Permutation
               (fold_left (fun sorted r => insert_by_ABC r sorted) rows acc)
               (acc ++ rows)).
  { induction rows as [ | r rows IH]; intros acc; simpl.
    - now rewrite app_nil_r.
    - rewrite IH, insert_by_ABC_perm. apply Permutation_middle. }
  apply (H []).
Qed.

(** The rows of the join, both ways. *)
Lemma join_where_iff row fcs cs formula_id :
  In row (join_where fcs cs formula_id) <->
  exists fc c, In fc fcs /\ In c cs
    /\ fc_formula_id fc = formula_id /\ fc_chemical_id fc = c_id c
    /\ row = {| r_id := c_id c; r_name := c_name c; r_chem := c_chem c;
                r_ABC := c_ABC c; r_concentration := fc_concentration fc |}.
Proof.
  unfold join_where; rewrite in_flat_map; split.
  - intros (fc & Hfc & H).
    destruct (Z.eqb_spec (fc_formula_id fc) formula_id) as [E | ]; [ | easy].
    apply in_map_iff in H as (c & <- & Hc).
    apply filter_In in Hc as [Hc Hid]; apply Z.eqb_eq in Hid.
    exists fc, c; auto 10.
  - intros (fc & c & Hfc & Hc & Hf & Hid & ->).
    exists fc; split; [exact Hfc | ].
    rewrite (proj2 (Z.eqb_eq _ _) Hf).
    apply in_map_iff; exists c; split; [reflexivity | ].
    apply filter_In; split; [exact Hc | now apply Z.eqb_eq].
Qed.

End JoinFacts.

(** X1. With a database that opens and a formula table that can be read,
    get_all_formulas returns one formula per stored row, in the order
    of the table, with the stored id and with the stored name (the empty
    text for a NULL name); it prints nothing and leaves the store and
    the pending input as they were. *)
Theorem formulas_listed_in_store_order (w : World) (db : Database)
    (res : list formula_row) :
  db_file w = Opened db ->
  hydroponic_formulas db = Some res ->
  exists formulas,
    get_all_formulas w = (Ret formulas, w)
    /\ map id formulas = map f_id res
    /\ forall i row,
         nth_error res i = Some row ->
         nth_error formulas i
         = Some {| id := f_id row; name := or_empty (f_name row) |}.
Proof.
  intros Edb Et. rewrite RepositoryFacts.get_all_formulas_eq, Edb, Et.
  eexists; split; [reflexivity | split].
  - rewrite map_map; reflexivity.
  - intros i row Hi. rewrite nth_error_map, Hi; reflexivity.
Qed.

Lemma formulas_listed_in_store_order_witness :
  exists formulas,
    get_all_formulas (Sample.world (Opened Sample.catalog) [])
      = (Ret formulas, Sample.world (Opened Sample.catalog) [])
    /\ map id formulas = [1; 2; 3].
Proof.
  destruct (formulas_listed_in_store_order
              (Sample.world (Opened Sample.catalog) []) Sample.catalog _
              eq_refl eq_refl) as (formulas & E & Hid & _).
  exists formulas; split; [exact E | exact Hid].
Defined.

(** X2. With a database whose association and chemical tables can be
    read, get_formula_chemicals returns, up to order, exactly the join:
    one chemical for each association of the formula asked for with an
    existing chemical, and nothing else.  An association that names no
    stored chemical gives no entry, a chemical associated twice gives
    two, and nothing is printed. *)
Theorem chemicals_are_the_join (formula_id : Z) (w : World) (db : Database)
    (fcs : list link_row) (cs : list chemical_row) :
  db_file w = Opened db ->
  formula_chemicals db = Some fcs ->
  chemicals db = Some cs ->
  exists returned,
    get_formula_chemicals formula_id w = (Ret returned, w)
    /\ Permutation returned
         (map chemical_of_row (join_where fcs cs formula_id))
    /\ forall ch,
         In ch returned <->
         exists fc c,
           In fc fcs /\ In c cs
           /\ fc_formula_id fc = formula_id /\ fc_chemical_id fc = c_id c
           /\ ch = {| chemical_id := c_id c;
                      chemical_name := or_empty (c_name c);
                      chemical_formula := or_empty (c_chem c);
                      category := or_empty (c_ABC c);
                      concentration := match fc_concentration fc with
                                       | Some x => x
                                       | None => PyFloat.zero
                                       end |}.
Proof.
  intros Edb Ef Ec.
  rewrite RepositoryFacts.get_formula_chemicals_eq, Edb, Ef, Ec.
  eexists; split; [reflexivity | split].
  - apply Permutation_map, JoinFacts.order_by_ABC_perm.
  - intros ch. rewrite in_map_iff. split.
    + intros (row & <- & Hrow).
      apply (proj1 (OrderFacts.order_by_ABC_in _ _)) in Hrow.
      apply JoinFacts.join_where_iff in Hrow
        as (fc & c & Hfc & Hc & Hf & Hid & ->).
      exists fc, c; auto 10.
    + intros (fc & c & Hfc & Hc & Hf & Hid & ->).
      eexists; split;
        [ | apply OrderFacts.order_by_ABC_in, JoinFacts.join_where_iff;
            exists fc, c; eauto 10].
      reflexivity.
Qed.

Lemma chemicals_are_the_join_witness :
  exists returned,
    get_formula_chemicals 1 (Sample.world (Opened Sample.catalog) [])
      = (Ret returned, Sample.world (Opened Sample.catalog) [])
    /\ Permutation returned
         [Sample.potassium_nitrate; Sample.calcium_nitrate].
Proof.
  destruct (chemicals_are_the_join 1
              (Sample.world (Opened Sample.catalog) []) Sample.catalog _ _
              eq_refl eq_refl eq_refl) as (returned & E & Hp & _).
  exists returned; split; [exact E | exact Hp].
Defined.

(** ** The numeric prompt, over all its turns *)

Module FloatLoopFacts.

Lemma eof py_float float_str prompt min_value w :
  stdin w = [] ->
  get_valid_float py_float float_str prompt min_value w
  = (Raise EOFError, write prompt w).
Proof.
  intros E. unfold get_valid_float. rewrite E.
  cbn [List.length get_valid_float_loop].
  unfold bind, input; cbn [write stdin]; rewrite E; reflexivity.
Qed.

Lemma float_rejected_turn py_float float_str prompt min_value w line rest :
  stdin w = line :: rest ->
  float_rejected py_float min_value line ->
  exists w1,
    get_valid_float py_float float_str prompt min_value w
    = get_valid_float py_float float_str prompt min_value w1
    /\ stdin w1 = rest /\ db_file w1 = db_file w
    /\ List.length (stdout w1) = (List.length (stdout w) + 2)%nat.
Proof.
  intros E Hr. unfold float_rejected in Hr.
  rewrite (LoopFacts.get_valid_float_turn py_float float_str prompt
             min_value w line rest E).
  destruct (py_float (strip line)) as [value | ].
  - rewrite Hr. eexists; split; [reflexivity | ].
    simpl. rewrite !length_app; simpl. repeat split; lia.
  - eexists; split; [reflexivity | ].
    simpl. rewrite !length_app; simpl. repeat split; lia.
Qed.

Lemma first_accepted
    (py_float : pystr -> option float) (float_str : float -> pystr)
    (prompt : pystr) (min_value : float) (w : World)
    (before : list pystr) (line : pystr) (rest : list pystr) (value : float) :
  stdin w = before ++ line :: rest ->
  Forall (float_rejected py_float min_value) before ->
  float_accepted py_float min_value line value ->
  exists out,
    get_valid_float py_float float_str prompt min_value w
    = (Ret value,
       {| db_file := db_file w; stdin := rest;
          stdout := stdout w ++ out ++ [prompt] |})
    /\ List.length out = (2 * List.length before)%nat.
Proof.
  revert w; induction before as [ | l before IH]; intros w E Hb [Hp Hlt].
  - simpl in E.
    rewrite (LoopFacts.get_valid_float_turn py_float float_str prompt
               min_value w line rest E), Hp, Hlt.
    exists []; split; reflexivity.
  - simpl in E. inversion Hb as [ | ? ? Hl Hb']; subst.
    pose proof (LoopFacts.get_valid_float_turn py_float float_str prompt
                  min_value w l (before ++ line :: rest) E) as T.
    unfold float_rejected in Hl.
    destruct (py_float (strip l)) as [x | ]; [rewrite Hl in T | ];
      rewrite T;
      match goal with
      | |- context [get_valid_float _ _ _ _ ?w1] =>
          destruct (IH w1 eq_refl Hb' (conj Hp Hlt)) as (out & -> & Hlen)
      end;
      eexists (_ :: _ :: out);
      (split;
        [ unfold write, asked; cbn [db_file stdin stdout];
          rewrite <- !app_assoc; reflexivity
        | simpl; lia ]).
Qed.

End FloatLoopFacts.

(** X3. When the pending input holds lines the numeric prompt rejects
    (not a number, or a number below the floor) followed by a line it
    accepts, get_valid_float returns the value of that line, consumes
    the lines up to and including it and no line after it, and has
    written, for each rejected line, the prompt and one message, then
    the prompt once more. *)
Theorem float_prompt_returns_first_accepted
    (py_float : pystr -> option float) (float_str : float -> pystr)
    (prompt : pystr) (min_value : float) (w : World)
    (before : list pystr) (line : pystr) (rest : list pystr) (value : float) :
  stdin w = before ++ line :: rest ->
  Forall (float_rejected py_float min_value) before ->
  float_accepted py_float min_value line value ->
  exists out,
    get_valid_float py_float float_str prompt min_value w
    = (Ret value,
       {| db_file := db_file w; stdin := rest;
          stdout := stdout w ++ out ++ [prompt] |})
    /\ List.length out = (2 * List.length before)%nat.
Proof.
  exact (FloatLoopFacts.first_accepted py_float float_str prompt min_value w
           before line rest value).
Qed.

Lemma float_prompt_returns_first_accepted_witness :
  exists out,
    get_valid_float Sample.float_of Sample.str_of (lit "> ")
      PyFloat.floor_0_0001
      (Sample.world (Opened Sample.catalog) [lit "abc"; lit "0"; lit "2"; lit "x"])
    = (Ret (PyFloat.of_Z 2),
       {| db_file := Opened Sample.catalog; stdin := [lit "x"];
          stdout := [] ++ out ++ [lit "> "] |})
    /\ List.length out = 4%nat.
Proof.
  apply (float_prompt_returns_first_accepted Sample.float_of Sample.str_of
           (lit "> ") PyFloat.floor_0_0001
           (Sample.world (Opened Sample.catalog)
              [lit "abc"; lit "0"; lit "2"; lit "x"])
           [lit "abc"; lit "0"] (lit "2") [lit "x"] (PyFloat.of_Z 2) eq_refl).
  - repeat constructor.
  - split; reflexivity.
Defined.

Lemma float_prompt_post_cons py_float min_value l lines r :
  float_rejected py_float min_value l ->
  float_prompt_post py_float min_value lines r ->
  float_prompt_post py_float min_value (l :: lines) r.
Proof.
  intros Hl. destruct r as [[value | e] w']; simpl.
  - intros (before & line & -> & Hb & Ha).
    exists (l :: before), line; repeat split; auto; apply Ha.
  - intros (-> & Hs & Hb); auto.
Qed.

Lemma float_loop_result
    (py_float : pystr -> option float) (float_str : float -> pystr)
    (prompt : pystr) (min_value : float) (w : World) :
  float_prompt_post py_float min_value (stdin w)
    (get_valid_float py_float float_str prompt min_value w).
Proof.
  remember (stdin w) as lines eqn:E. symmetry in E.
  revert w E; induction lines as [ | l lines IH]; intros w E.
  - rewrite (FloatLoopFacts.eof py_float float_str prompt min_value w E).
    simpl. auto.
  - rewrite (LoopFacts.get_valid_float_turn py_float float_str prompt
               min_value w l lines E).
    destruct (py_float (strip l)) as [value | ] eqn:Hp.
    + destruct (PyFloat.ltb value min_value) eqn:Hlt.
      * apply float_prompt_post_cons;
          [unfold float_rejected; now rewrite Hp | apply IH; reflexivity].
      * exists [], l. repeat split; auto.
    + apply float_prompt_post_cons;
        [unfold float_rejected; now rewrite Hp | apply IH; reflexivity].
Qed.

(** X4. Whatever the pending input, get_valid_float ends in one of two
    ways: it returns the value of the first line that is a number not
    below the floor, every line before it having been rejected and the
    lines after it left pending; or every pending line is rejected and
    the call ends with the EOFError of input(), the input used up.  It
    never returns a value below the floor. *)
Theorem float_prompt_result
    (py_float : pystr -> option float) (float_str : float -> pystr)
    (prompt : pystr) (min_value : float) (w : World) :
  float_prompt_post py_float min_value (stdin w)
    (get_valid_float py_float float_str prompt min_value w).
Proof.
  exact (float_loop_result py_float float_str prompt min_value w).
Qed.

(** ** The formula prompt, over all its turns *)

Module IdLoopFacts.

Lemma post_cons formulas l lines r :
  id_rejected formulas l ->
  formula_prompt_post formulas lines r ->
  formula_prompt_post formulas (l :: lines) r.
Proof.
  intros Hl. destruct r as [[[n | ] | e] w']; simpl.
  - intros (before & line & f & -> & Hb & Hf & Hid & Hs).
    exists (l :: before), line, f; repeat split; auto.
  - intros (before & line & -> & Hb & Hq).
    exists (l :: before), line; repeat split; auto.
  - intros (-> & Hs & Hb); auto.
Qed.

(** The three ways a line is judged. *)
Lemma judge formulas line :
  (PyStr.eqb (lower (strip line)) (lit "q") = true /\ is_quit line)
  \/ (PyStr.eqb (lower (strip line)) (lit "q") = false
      /\ PyStr.mem (strip line) (formula_ids_of formulas) = true
      /\ exists f, In f formulas /\ strip line = PyStr.of_int (id f)
                   /\ PyStr.to_int (strip line) = Some (id f))
  \/ (PyStr.eqb (lower (strip line)) (lit "q") = false
      /\ PyStr.mem (strip line) (formula_ids_of formulas) = false
      /\ id_rejected formulas line).
Proof.
  destruct (PyStr.eqb (lower (strip line)) (lit "q")) eqn:Eq.
  { left; split; [reflexivity | now apply StrFacts.lower_is_q]. }
  right.
  destruct (PyStr.mem (strip line) (formula_ids_of formulas)) eqn:Em.
  - left; repeat split.
    apply StrFacts.mem_in, in_map_iff in Em as (f & Ef & Hf).
    exists f; repeat split; auto.
    rewrite <- Ef; apply StrFacts.to_int_of_int.
  - right; repeat split.
    + intros Hq. apply StrFacts.lower_is_q in Hq. congruence.
    + intros f Hf E.
      apply StrFacts.mem_not_in in Em; apply Em.
      rewrite E. unfold formula_ids_of. apply in_map_iff; exists f; auto.
Qed.

Lemma id_rejected_turn formulas w line rest :
  stdin w = line :: rest ->
  id_rejected formulas line ->
  exists w1,
    get_valid_formula_id formulas w = get_valid_formula_id formulas w1
    /\ stdin w1 = rest /\ db_file w1 = db_file w.
Proof.
  intros E [Hq Hid].
  rewrite (LoopFacts.get_valid_formula_id_turn formulas w line rest E).
  destruct (PromptFacts.display_formulas_eq formulas w) as (_ & Hdb & _).
  destruct (judge formulas line)
    as [[_ Hq'] | [(_ & _ & f & Hf & Ef & _) | (-> & -> & _)]].
  - contradiction.
  - exfalso; exact (Hid f Hf Ef).
  - cbv zeta. eexists; split; [reflexivity | split; [reflexivity | exact Hdb]].
Qed.

Lemma reaches_first_valid (formulas : list Formula)
    (w : World) (before : list pystr) (line : pystr) (rest : list pystr) :
  stdin w = before ++ line :: rest ->
  Forall (id_rejected formulas) before ->
  (is_quit line ->
     exists out,
       get_valid_formula_id formulas w
       = (Ret None,
          {| db_file := db_file w; stdin := rest;
             stdout := out ++ [formula_id_prompt; lit "程序退出" ++ nl] |}))
  /\ (forall f, In f formulas -> strip line = PyStr.of_int (id f) ->
        exists out,
          get_valid_formula_id formulas w
          = (Ret (Some (id f)),
             {| db_file := db_file w; stdin := rest;
                stdout := out ++ [formula_id_prompt] |})).
Proof.
  revert w; induction before as [ | l before IH]; intros w E Hb.
  - simpl in E.
    pose proof (LoopFacts.get_valid_formula_id_turn formulas w line rest E) as T.
    cbv zeta in T.
    destruct (PromptFacts.display_formulas_eq formulas w) as (_ & Hdb & _).
    split.
    + intros Hq. apply StrFacts.lower_is_q in Hq. rewrite Hq in T.
      exists (stdout (snd (display_formulas formulas w))).
      rewrite T. unfold write, asked; cbn [db_file stdin stdout].
      rewrite Hdb, <- app_assoc. reflexivity.
    + intros f Hf Ef.
      destruct (IdLoopFacts.judge formulas line)
        as [[_ Hq] | [(E1 & E2 & f' & Hf' & Ef' & E3) | (_ & _ & _ & Hr)]].
      * apply StrFacts.lower_is_q in Hq.
        rewrite Ef, StrFacts.of_int_not_quit in Hq. discriminate.
      * rewrite E1, E2 in T. rewrite Ef, StrFacts.to_int_of_int in T.
        exists (stdout (snd (display_formulas formulas w))).
        rewrite T. unfold asked. rewrite Hdb. reflexivity.
      * exfalso; exact (Hr f Hf Ef).
  - simpl in E. inversion Hb as [ | ? ? Hl Hb']; subst.
    destruct (IdLoopFacts.id_rejected_turn formulas w l
                (before ++ line :: rest) E Hl) as (w1 & -> & E1 & Hdb).
    destruct (IH w1 E1 Hb') as [Hquit Hsel].
    rewrite Hdb in Hquit, Hsel. split; assumption.
Qed.

End IdLoopFacts.

Lemma formula_loop_result (formulas : list Formula) (w : World) :
  formula_prompt_post formulas (stdin w) (get_valid_formula_id formulas w).
Proof.
  remember (stdin w) as lines eqn:E. symmetry in E.
  revert w E; induction lines as [ | l lines IH]; intros w E.
  - unfold get_valid_formula_id. rewrite E. cbn [List.length].
    rewrite (FuelFacts.get_valid_formula_id_loop_eof formulas _ 0 w E).
    destruct (PromptFacts.display_formulas_eq formulas w) as (_ & _ & Hin).
    simpl. rewrite Hin, E. auto.
  - rewrite (LoopFacts.get_valid_formula_id_turn formulas w l lines E).
    cbv zeta.
    destruct (IdLoopFacts.judge formulas l)
      as [[-> Hq] | [(-> & -> & f & Hf & Ef & ->) | (-> & -> & Hr)]].
    + exists [], l. simpl. auto.
    + exists [], l, f. simpl. auto.
    + apply IdLoopFacts.post_cons; [exact Hr | ].
      apply IH. reflexivity.
Qed.

(** X5. Whatever the pending input, get_valid_formula_id ends in one of
    three ways: it returns the id of a formula of the list, the first
    line that is not rejected being the text of that id once stripped;
    it returns None, that line being q or Q once stripped; or every
    pending line is rejected and the call ends with the EOFError of
    input().  An id outside the list is never returned. *)
Theorem formula_prompt_result (formulas : list Formula) (w : World) :
  formula_prompt_post formulas (stdin w) (get_valid_formula_id formulas w).
Proof.
  exact (formula_loop_result formulas w).
Qed.

(** X6. When the pending input holds lines the formula prompt rejects,
    followed by a line that is the quit token or the text of a listed
    id, get_valid_formula_id returns None, respectively that id,
    consumes the lines up to and including that line only, and the last
    thing it writes is the prompt (followed by the goodbye line when
    quitting). *)
Theorem formula_prompt_reaches_first_valid (formulas : list Formula)
    (w : World) (before : list pystr) (line : pystr) (rest : list pystr) :
  stdin w = before ++ line :: rest ->
  Forall (id_rejected formulas) before ->
  (is_quit line ->
     exists out,
       get_valid_formula_id formulas w
       = (Ret None,
          {| db_file := db_file w; stdin := rest;
             stdout := out ++ [formula_id_prompt; lit "程序退出" ++ nl] |}))
  /\ (forall f, In f formulas -> strip line = PyStr.of_int (id f) ->
        exists out,
          get_valid_formula_id formulas w
          = (Ret (Some (id f)),
             {| db_file := db_file w; stdin := rest;
                stdout := out ++ [formula_id_prompt] |})).
Proof.
  exact (IdLoopFacts.reaches_first_valid formulas w before line rest).
Qed.

Lemma formula_prompt_reaches_first_valid_witness :
  exists out,
    get_valid_formula_id Sample.formulas
      (Sample.world (Opened Sample.catalog) [lit "9"; lit " 2 "; lit "5"])
    = (Ret (Some 2),
       {| db_file := Opened Sample.catalog; stdin := [lit "5"];
          stdout := out ++ [formula_id_prompt] |}).
Proof.
  apply (proj2 (formula_prompt_reaches_first_valid Sample.formulas
                  (Sample.world (Opened Sample.catalog)
                     [lit "9"; lit " 2 "; lit "5"])
                  [lit "9"] (lit " 2 ") [lit "5"] eq_refl
                  ltac:(repeat constructor;
                        [ intros [H | H]; vm_compute in H; discriminate
                        | intros f [<- | [<- | [<- | []]]]; vm_compute;
                          discriminate ]))
           {| id := 2; name := [] |}).
  - right; left; reflexivity.
  - reflexivity.
Defined.

(** ** The list of formulas and the processing step *)

Module DisplayFacts.

Lemma for_each_print_output {A} (g : A -> pystr) xs w :
  for_each xs (fun x => print (g x)) w
  = (Ret tt,
     {| db_file := db_file w; stdin := stdin w;
        stdout := stdout w ++ map (fun x => g x ++ nl) xs |}).
Proof.
  revert w; induction xs as [ | x xs IH]; intros w; simpl.
  - destruct w; simpl. now rewrite app_nil_r.
  - unfold bind at 1, print at 1. rewrite IH. simpl.
    now rewrite <- app_assoc.
Qed.

Lemma fold_add_row_settings (f : Chemical -> list pystr) chems t :
  field_names (fold_left (fun table chemical => add_row table (f chemical)) chems t)
  = field_names t
  /\ align (fold_left (fun table chemical => add_row table (f chemical)) chems t)
     = align t
  /\ float_format
       (fold_left (fun table chemical => add_row table (f chemical)) chems t)
     = float_format t.
Proof.
  revert t; induction chems as [ | ch chems IH]; intros t; simpl; auto.
  destruct (IH (add_row t (f ch))) as (H1 & H2 & H3). auto.
Qed.

Lemma get_formula_chemicals_returns formula_id w :
  exists returned w', get_formula_chemicals formula_id w = (Ret returned, w').
Proof.
  rewrite RepositoryFacts.get_formula_chemicals_eq.
  destruct (db_file w) as [err | err | db]; eauto.
  destruct (formula_chemicals db); eauto.
  destruct (chemicals db); eauto.
Qed.

End DisplayFacts.

(** X7. display_formulas writes the one no-data line for the empty list,
    and otherwise the title, the column heads and a rule of thirty
    dashes followed by one line per formula, in list order, made of the
    id, a tab and the name padded to twelve characters; it reads no
    input, does not touch the store and never fails. *)
Theorem display_formulas_output (formulas : list Formula) (w : World) :
  display_formulas formulas w
  = (Ret tt,
     {| db_file := db_file w; stdin := stdin w;
        stdout :=
          stdout w
          ++ match formulas with
             | [] => [lit "没有查询到配方数据" ++ nl]
             | _ => [ (nl ++ lit "水培配方列表:") ++ nl;
                      (lit "ID" ++ tab ++ lit "名称") ++ nl;
                      repeat 45%N 30 ++ nl ]
                    ++ map formula_line formulas
             end |}).
Proof.
  unfold display_formulas.
  destruct formulas as [ | f formulas]; [reflexivity | ].
  set (l := f :: formulas).
  unfold bind at 1 2 3, print at 1 2 3.
  rewrite (DisplayFacts.for_each_print_output
             (fun formula =>
                PyStr.of_int (id formula) ++ tab ++ ljust 12 (name formula))).
  unfold write; cbn [db_file stdin stdout].
  do 2 f_equal. rewrite <- !app_assoc. reflexivity.
Qed.

(** X8. For an id that no formula of the list carries, process_formula
    returns the not-found message with that id, without querying the
    database: nothing is printed and the world is left as it was, even
    when the database cannot be opened. *)
Theorem process_formula_not_found (table_str : PrettyTable -> pystr)
    (formula_id : Z) (v d : float) (formulas : list Formula) (w : World) :
  (forall f, In f formulas -> id f <> formula_id) ->
  process_formula table_str formula_id v d formulas w
  = (Ret (lit "错误：未找到 ID 为 " ++ PyStr.of_int formula_id
          ++ lit " 的配方"), w).
Proof.
  intros Hno. rewrite ReportFacts.process_formula_eq.
  destruct (find (fun f => id f =? formula_id) formulas) as [f | ] eqn:E;
    [ | reflexivity].
  apply find_some in E as [Hf Hid]. apply Z.eqb_eq in Hid.
  exfalso; exact (Hno f Hf Hid).
Qed.

Lemma process_formula_not_found_witness :
  process_formula Sample.bars 7 PyFloat.one PyFloat.one Sample.formulas
    (Sample.world (Unopenable (lit "unable to open database file")) [])
  = (Ret (lit "错误：未找到 ID 为 " ++ PyStr.of_int 7 ++ lit " 的配方"),
     Sample.world (Unopenable (lit "unable to open database file")) []).
Proof.
  apply process_formula_not_found.
  intros f [<- | [<- | [<- | []]]]; discriminate.
Defined.

(** X9. Whatever the id, the numbers, the list of formulas and the state
    of the store, process_formula returns a text: a database failure
    inside it is caught by the query and never reaches the caller. *)
Theorem process_formula_never_raises (table_str : PrettyTable -> pystr)
    (formula_id : Z) (v d : float) (formulas : list Formula) (w : World) :
  exists text w',
    process_formula table_str formula_id v d formulas w = (Ret text, w').
Proof.
  rewrite ReportFacts.process_formula_eq.
  destruct (find _ formulas); [ | eauto].
  destruct (DisplayFacts.get_formula_chemicals_returns formula_id w)
    as (l & w' & ->).
  destruct l; eauto.
Qed.

(** X10. For a formula of the list, when the connection or the chemicals
    query fails, process_formula returns the same message as for a
    formula without chemicals, after one diagnostic line has been
    printed: the caller cannot tell a failure from an empty formula by
    the returned text. *)
Theorem failure_reported_as_no_chemicals (table_str : PrettyTable -> pystr)
    (formula_id : Z) (v d : float) (formulas : list Formula) (w : World) :
  (exists f, In f formulas /\ id f = formula_id) ->
  connection_fails w \/ chemicals_query_fails w ->
  exists diagnostic,
    process_formula table_str formula_id v d formulas w
    = (Ret (lit "错误：配方 ID " ++ PyStr.of_int formula_id
            ++ lit " 未关联任何化合物"),
       write (diagnostic ++ nl) w).
Proof.
  intros (f & Hf & Hid) Hfail.
  rewrite ReportFacts.process_formula_eq.
  destruct (find (fun f => id f =? formula_id) formulas) eqn:E;
    [ | apply (find_none _ _ E) in Hf; apply Z.eqb_neq in Hf; contradiction].
  rewrite RepositoryFacts.get_formula_chemicals_eq.
  destruct Hfail as [[err Ew] | [[err Ew] | (db & Ew & [Hm | Hm])]];
    rewrite Ew; try (eexists; reflexivity).
  - rewrite Hm; eexists; reflexivity.
  - rewrite Hm; destruct (formula_chemicals db); eexists; reflexivity.
Qed.

Lemma failure_reported_as_no_chemicals_witness :
  exists diagnostic,
    process_formula Sample.bars 1 PyFloat.one PyFloat.one Sample.formulas
      (Sample.world (Unopenable (lit "unable to open database file")) [])
    = (Ret (lit "错误：配方 ID " ++ PyStr.of_int 1 ++ lit " 未关联任何化合物"),
       write (diagnostic ++ nl)
         (Sample.world (Unopenable (lit "unable to open database file")) [])).
Proof.
  apply failure_reported_as_no_chemicals.
  - exists {| id := 1; name := lit "Hoagland" |}; split;
      [left; reflexivity | reflexivity].
  - left; eexists; reflexivity.
Defined.

(** X11. The table of a report has six columns, is left aligned, and every
    row has six cells, the third of which (the chemical notation) is
    never empty: a chemical without a notation shows a placeholder. *)
Theorem report_table_shape (chems : list Chemical) (v d : float) :
  List.length (field_names (report_table chems v d)) = 6%nat
  /\ align (report_table chems v d) = lit "l"
  /\ Forall (fun row => List.length row = 6%nat
                        /\ exists cell, nth_error row 2 = Some cell
                                        /\ cell <> [])
       (rows (report_table chems v d)).
Proof.
  unfold report_table.
  match goal with
  | |- context [fold_left ?f chems ?t] =>
      destruct (DisplayFacts.fold_add_row_settings
                  (fun ch => dose_row ch v d) chems t) as (H1 & H2 & _)
  end.
  rewrite H1, H2. repeat split.
  fold (report_table chems v d).
  rewrite ReportFacts.report_table_rows.
  apply Forall_forall; intros row Hrow.
  apply in_map_iff in Hrow as (ch & <- & _).
  split; [reflexivity | ].
  exists (formula_display ch); split; [reflexivity | ].
  unfold formula_display. destruct (chemical_formula ch); discriminate.
Qed.

(** X12. A chemical whose stored concentration is NULL is reported, for
    every positive finite volume and dilution factor, with the mass
    0.0: its row shows 0.00 as the concentration and 0.0000 as the
    mass. *)
Theorem null_concentration_row (row : joined_row) (v d : float) :
  r_concentration row = None ->
  PyFloat.gtb v PyFloat.zero = true -> is_finite v = true ->
  PyFloat.gtb d PyFloat.zero = true -> is_finite d = true ->
  mass (chemical_of_row row) v d = PyFloat.zero
  /\ nth_error (dose_row (chemical_of_row row) v d) 3 = Some (lit "0.00")
  /\ nth_error (dose_row (chemical_of_row row) v d) 4 = Some (lit "0.0000").
Proof.
  intros Hn Hv Hvf Hd Hdf.
  assert (Pv : positive_real v) by now apply FloatFacts.positive_real_iff.
  assert (Pd : positive_real d) by now apply FloatFacts.positive_real_iff.
  assert (Hm : mass (chemical_of_row row) v d = PyFloat.zero).
  { unfold mass, chemical_of_row; simpl. rewrite Hn.
    destruct v as [ | | | sv mv ev]; try contradiction.
    destruct d as [ | | | sd md ed]; try contradiction.
    simpl in Pv, Pd; subst. reflexivity. }
  split; [exact Hm | split].
  - unfold dose_row, chemical_of_row; simpl. rewrite Hn. reflexivity.
  - unfold dose_row. cbn [nth_error]. rewrite Hm. reflexivity.
Qed.

Lemma null_concentration_row_witness :
  nth_error
    (dose_row
       (chemical_of_row
          {| r_id := 12; r_name := Some (lit "Chelated iron"); r_chem := None;
             r_ABC := None; r_concentration := None |})
       (PyFloat.of_Z 2) (PyFloat.of_Z 10)) 4
  = Some (lit "0.0000").
Proof.
  exact (proj2 (proj2 (null_concentration_row
                         {| r_id := 12; r_name := Some (lit "Chelated iron");
                            r_chem := None; r_ABC := None;
                            r_concentration := None |}
                         (PyFloat.of_Z 2) (PyFloat.of_Z 10)
                         eq_refl eq_refl eq_refl eq_refl eq_refl))).
Defined.

(** ** The session *)

Module SessionFacts.

Lemma get_all_formulas_world w :
  db_file (snd (get_all_formulas w)) = db_file w
  /\ stdin (snd (get_all_formulas w)) = stdin w
  /\ exists formulas, fst (get_all_formulas w) = Ret formulas.
Proof.
  rewrite RepositoryFacts.get_all_formulas_eq.
  destruct (db_file w) as [err | err | db] eqn:E;
    [rewrite <- E; simpl; eauto | rewrite <- E; simpl; eauto | ].
  destruct (hydroponic_formulas db); rewrite <- E; simpl; eauto.
Qed.

(** [input(prompt)]; the value read is dropped. *)
Lemma wait_enter w :
  (input enter_prompt ;; ret tt)%py w
  = match stdin w with
    | [] => (Raise EOFError, write enter_prompt w)
    | _ :: rest => (Ret tt, asked enter_prompt rest w)
    end.
Proof.
  unfold bind, input; cbn [write stdin].
  destruct (stdin w); reflexivity.
Qed.

(** The [finally] block. *)
Lemma closing_eq w :
  (print (lit "程序已结束。") ;; input enter_prompt ;; ret tt)%py w
  = match stdin w with
    | [] => (Raise EOFError, write enter_prompt (write closing_message w))
    | _ :: rest => (Ret tt, asked enter_prompt rest (write closing_message w))
    end.
Proof.
  unfold bind at 1, print. rewrite wait_enter. reflexivity.
Qed.

(** A [try] whose handler prints and whose [finally] block is the
    closing one: the block runs on whatever the body or the handler
    left. *)
Lemma try_closing (body : M unit) (handler : exn -> pystr) w :
  exists w1,
    try_except_finally body (fun e => print (handler e))
      (print (lit "程序已结束。") ;; input enter_prompt ;; ret tt)%py w
    = match stdin w1 with
      | [] => (Raise EOFError, write enter_prompt (write closing_message w1))
      | _ :: rest =>
          (Ret tt, asked enter_prompt rest (write closing_message w1))
      end
    /\ w1 = match body w with
            | (Ret _, w') => w'
            | (Raise e, w') => write (handler e ++ nl) w'
            end.
Proof.
  unfold try_except_finally.
  destruct (body w) as [[[] | e] w'].
  - exists w'; split; [ | reflexivity].
    rewrite closing_eq. destruct (stdin w'); reflexivity.
  - exists (write (handler e ++ nl) w'); split; [ | reflexivity].
    unfold print at 1. rewrite closing_eq.
    destruct (stdin (write (handler e ++ nl) w')); reflexivity.
Qed.

(** The processing step returns a text, keeps the store and the pending
    input, and only adds to what is written. *)
Lemma process_formula_run table_str formula_id v d formulas w :
  exists text w',
    process_formula table_str formula_id v d formulas w = (Ret text, w')
    /\ db_file w' = db_file w /\ stdin w' = stdin w
    /\ exists written, stdout w' = stdout w ++ written.
Proof.
  rewrite ReportFacts.process_formula_eq.
  destruct (find _ formulas).
  2:{ eexists _, w; repeat split. exists []; now rewrite app_nil_r. }
  assert (H : exists returned w',
             get_formula_chemicals formula_id w = (Ret returned, w')
             /\ db_file w' = db_file w /\ stdin w' = stdin w
             /\ exists written, stdout w' = stdout w ++ written).
  { rewrite RepositoryFacts.get_formula_chemicals_eq.
    destruct (db_file w) as [err | err | db] eqn:E.
    - eexists _, _; repeat split; eauto. simpl; eauto.
    - eexists _, _; repeat split; eauto. simpl; eauto.
    - destruct (formula_chemicals db);
        [destruct (chemicals db) | ];
        eexists _, _; repeat split; eauto; simpl; eauto.
      exists []; now rewrite app_nil_r. }
  destruct H as (returned & w' & -> & Hdb & Hin & Hout).
  destruct returned; eexists _, w'; repeat split; auto.
Qed.

Lemma process_formula_store table_str formula_id v d formulas w1 w2 :
  db_file w1 = db_file w2 ->
  fst (process_formula table_str formula_id v d formulas w1)
  = fst (process_formula table_str formula_id v d formulas w2).
Proof.
  intros E. rewrite !ReportFacts.process_formula_eq.
  destruct (find _ formulas); [ | reflexivity].
  pose proof (ReportFacts.get_formula_chemicals_store formula_id w1 w2 E) as H.
  destruct (get_formula_chemicals formula_id w1) as [r1 w1'],
    (get_formula_chemicals formula_id w2) as [r2 w2'].
  simpl in H; subst r2. destruct r1 as [[ | ch l] | e]; reflexivity.
Qed.

Lemma no_formulas py_float float_str table_str w w1 :
  get_all_formulas w = (Ret [], w1) ->
  main py_float float_str table_str w
  = match stdin w with
    | [] =>
        (Raise EOFError,
         write enter_prompt
           (write (lit "无法继续：没有查询到配方数据" ++ nl) w1))
    | _ :: rest =>
        (Ret tt,
         asked enter_prompt rest
           (write (lit "无法继续：没有查询到配方数据" ++ nl) w1))
    end.
Proof.
  intros H.
  destruct (get_all_formulas_world w) as (_ & Hin & _).
  rewrite H in Hin; simpl in Hin.
  unfold main, bind at 1. rewrite H.
  unfold bind at 1, print.
  change (lit "按 Enter 键退出...") with enter_prompt.
  rewrite wait_enter. cbn [write stdin]. rewrite Hin.
  reflexivity.
Qed.

Lemma with_formulas py_float float_str table_str w w1 f formulas :
  get_all_formulas w = (Ret (f :: formulas), w1) ->
  main py_float float_str table_str w
  = try_except_finally
      (session_body py_float float_str table_str (f :: formulas))
      (fun e => print (lit "程序发生错误: " ++ exn_str e))
      (print (lit "程序已结束。") ;; input enter_prompt ;; ret tt)%py w1.
Proof.
  intros H. unfold main, bind at 1. rewrite H. reflexivity.
Qed.

(** After the body, with or without an error message, the closing block. *)
Lemma session_closes py_float float_str table_str w w1 f formulas :
  get_all_formulas w = (Ret (f :: formulas), w1) ->
  exists w2,
    main py_float float_str table_str w
    = match stdin w2 with
      | [] => (Raise EOFError, write enter_prompt (write closing_message w2))
      | _ :: rest =>
          (Ret tt, asked enter_prompt rest (write closing_message w2))
      end
    /\ w2 = match session_body py_float float_str table_str (f :: formulas) w1
            with
            | (Ret _, w') => w'
            | (Raise e, w') =>
                write ((lit "程序发生错误: " ++ exn_str e) ++ nl) w'
            end.
Proof.
  intros H. rewrite (with_formulas _ _ _ _ _ _ _ H).
  apply (try_closing
           (session_body py_float float_str table_str (f :: formulas))
           (fun e => lit "程序发生错误: " ++ exn_str e) w1).
Qed.

End SessionFacts.

(** X13. When get_all_formulas returns the empty list, main prints the
    cannot-continue line and then only waits for Enter: no menu is
    shown and no prompt of the session is asked.  It returns normally
    when a line is pending, and ends with the EOFError of input() when
    none is. *)
Theorem main_without_formulas (py_float : pystr -> option float)
    (float_str : float -> pystr) (table_str : PrettyTable -> pystr)
    (w w1 : World) :
  get_all_formulas w = (Ret [], w1) ->
  main py_float float_str table_str w
  = match stdin w with
    | [] =>
        (Raise EOFError,
         write enter_prompt
           (write (lit "无法继续：没有查询到配方数据" ++ nl) w1))
    | _ :: rest =>
        (Ret tt,
         asked enter_prompt rest
           (write (lit "无法继续：没有查询到配方数据" ++ nl) w1))
    end.
Proof. exact (SessionFacts.no_formulas py_float float_str table_str w w1). Qed.

Lemma main_without_formulas_witness :
  main Sample.float_of Sample.str_of Sample.bars
    (Sample.world (Opened Sample.broken_catalog) [lit "1"; lit "q"])
  = (Ret tt,
     {| db_file := Opened Sample.broken_catalog; stdin := [lit "q"];
        stdout := [ (lit "数据库查询失败: "
                     ++ lit "no such table: hydroponic_formulas") ++ nl;
                    lit "无法继续：没有查询到配方数据" ++ nl;
                    enter_prompt ] |}).
Proof.
  exact (main_without_formulas Sample.float_of Sample.str_of Sample.bars
           (Sample.world (Opened Sample.broken_catalog) [lit "1"; lit "q"])
           _ eq_refl).
Defined.

(** X14. Whatever the store and the pending input, main either returns
    normally or ends with EOFError with the input used up (the final
    wait for Enter is outside any handler); no other exception leaves
    it, and the last thing it writes is the wait-for-Enter prompt. *)
Theorem main_result (py_float : pystr -> option float)
    (float_str : float -> pystr) (table_str : PrettyTable -> pystr)
    (w : World) :
  (fst (main py_float float_str table_str w) = Ret tt
   \/ (fst (main py_float float_str table_str w) = Raise EOFError
       /\ stdin (snd (main py_float float_str table_str w)) = []))
  /\ exists out,
       stdout (snd (main py_float float_str table_str w))
       = out ++ [enter_prompt].
Proof.
  destruct (SessionFacts.get_all_formulas_world w) as (_ & Hin & l & Hl).
  destruct (get_all_formulas w) as [r w1] eqn:H. simpl in Hin, Hl. subst r.
  destruct l as [ | f formulas].
  - rewrite (SessionFacts.no_formulas py_float float_str table_str w w1 H).
    destruct (stdin w) as [ | line rest] eqn:E; simpl.
    + split; [right; split; [reflexivity | congruence] | eauto].
    + split; [left; reflexivity | eauto].
  - destruct (SessionFacts.session_closes py_float float_str table_str
                w w1 f formulas H) as (w2 & -> & _).
    destruct (stdin w2) as [ | line rest] eqn:E; simpl.
    + split; [right; split; [reflexivity | exact E] | eauto].
    + split; [left; reflexivity | eauto].
Qed.

(** X15. When the catalog is not empty, the finally clause always runs:
    whatever happens in the session, the last two things main writes
    are the closing line and the wait-for-Enter prompt. *)
Theorem main_closing_message (py_float : pystr -> option float)
    (float_str : float -> pystr) (table_str : PrettyTable -> pystr)
    (w w1 : World) (f : Formula) (formulas : list Formula) :
  get_all_formulas w = (Ret (f :: formulas), w1) ->
  exists out,
    stdout (snd (main py_float float_str table_str w))
    = out ++ [closing_message; enter_prompt].
Proof.
  intros H.
  destruct (SessionFacts.session_closes py_float float_str table_str
              w w1 f formulas H) as (w2 & -> & _).
  destruct (stdin w2); simpl; rewrite <- app_assoc; eauto.
Qed.

Lemma main_closing_message_witness :
  exists out,
    stdout (snd (main Sample.float_of Sample.str_of Sample.bars
                   (Sample.world (Opened Sample.catalog) [lit "x"])))
    = out ++ [closing_message; enter_prompt].
Proof.
  exact (main_closing_message Sample.float_of Sample.str_of Sample.bars
           (Sample.world (Opened Sample.catalog) [lit "x"]) _ _ _ eq_refl).
Defined.

(** X16. With a catalog that is not empty, when the first line that the
    formula prompt does not reject is the quit token, main asks for no
    number: it writes the goodbye line, the closing line and the
    wait-for-Enter prompt, consumes one further line if there is one,
    and leaves the store as it was. *)
Theorem main_quit (py_float : pystr -> option float)
    (float_str : float -> pystr) (table_str : PrettyTable -> pystr)
    (w w1 : World) (f0 : Formula) (formulas : list Formula)
    (before : list pystr) (line : pystr) (rest : list pystr) :
  get_all_formulas w = (Ret (f0 :: formulas), w1) ->
  stdin w = before ++ line :: rest ->
  Forall (id_rejected (f0 :: formulas)) before ->
  is_quit line ->
  exists out,
    main py_float float_str table_str w
    = (match rest with [] => Raise EOFError | _ :: _ => Ret tt end,
       {| db_file := db_file w; stdin := tl rest;
          stdout := out ++ [formula_id_prompt; lit "程序退出" ++ nl;
                            closing_message; enter_prompt] |}).
Proof.
  intros H E Hb Hq.
  destruct (SessionFacts.get_all_formulas_world w) as (Hdb & Hin & _).
  rewrite H in Hdb, Hin; simpl in Hdb, Hin.
  rewrite <- Hin in E.
  destruct (proj1 (IdLoopFacts.reaches_first_valid (f0 :: formulas) w1
                     before line rest E Hb) Hq) as (out & R).
  assert (Hbody : session_body py_float float_str table_str (f0 :: formulas) w1
                  = (Ret tt,
                     {| db_file := db_file w1; stdin := rest;
                        stdout := out ++ [formula_id_prompt;
                                          lit "程序退出" ++ nl] |})).
  { unfold session_body, bind at 1. rewrite R. reflexivity. }
  destruct (SessionFacts.session_closes py_float float_str table_str
              w w1 f0 formulas H) as (w2 & -> & Hw2).
  rewrite Hbody in Hw2. subst w2.
  exists out. cbn [stdin].
  destruct rest; unfold write, asked; cbn [db_file stdin stdout tl];
    rewrite Hdb, <- !app_assoc; reflexivity.
Qed.

Lemma main_quit_witness :
  exists out,
    main Sample.float_of Sample.str_of Sample.bars
      (Sample.world (Opened Sample.catalog) [lit "9"; lit " Q "; lit ""; lit "1"])
    = (Ret tt,
       {| db_file := Opened Sample.catalog; stdin := [lit "1"];
          stdout := out ++ [formula_id_prompt; lit "程序退出" ++ nl;
                            closing_message; enter_prompt] |}).
Proof.
  apply (main_quit Sample.float_of Sample.str_of Sample.bars
           (Sample.world (Opened Sample.catalog)
              [lit "9"; lit " Q "; lit ""; lit "1"])
           _ _ _ [lit "9"] (lit " Q ") [lit ""; lit "1"] eq_refl eq_refl).
  - repeat constructor;
      [ intros [H | H]; vm_compute in H; discriminate
      | intros f [<- | [<- | [<- | []]]]; vm_compute; discriminate ].
  - right; reflexivity.
Defined.

(** X17. With a catalog that is not empty, when the pending input gives
    (after any rejected lines at each prompt) the id of a listed
    formula, an accepted volume and an accepted dilution factor, main
    prints the text that process_formula returns for that id and those
    two numbers, then the closing line and the wait-for-Enter prompt;
    one session handles one formula only. *)
Theorem main_report (py_float : pystr -> option float)
    (float_str : float -> pystr) (table_str : PrettyTable -> pystr)
    (w w1 : World) (f0 : Formula) (formulas : list Formula) (f : Formula)
    (b1 b2 b3 : list pystr) (l1 l2 l3 : pystr) (rest : list pystr)
    (v d : float) :
  get_all_formulas w = (Ret (f0 :: formulas), w1) ->
  stdin w = b1 ++ l1 :: b2 ++ l2 :: b3 ++ l3 :: rest ->
  Forall (id_rejected (f0 :: formulas)) b1 ->
  In f (f0 :: formulas) -> strip l1 = PyStr.of_int (id f) ->
  Forall (float_rejected py_float PyFloat.floor_0_0001) b2 ->
  float_accepted py_float PyFloat.floor_0_0001 l2 v ->
  Forall (float_rejected py_float PyFloat.floor_0_0001) b3 ->
  float_accepted py_float PyFloat.floor_0_0001 l3 d ->
  exists out text,
    fst (process_formula table_str (id f) v d (f0 :: formulas) w) = Ret text
    /\ main py_float float_str table_str w
       = (match rest with [] => Raise EOFError | _ :: _ => Ret tt end,
          {| db_file := db_file w; stdin := tl rest;
             stdout := out ++ [text ++ nl; closing_message; enter_prompt] |}).
Proof.
  intros H E Hb1 Hf Hl1 Hb2 Hl2 Hb3 Hl3.
  destruct (SessionFacts.get_all_formulas_world w) as (Hdb & Hin & _).
  rewrite H in Hdb, Hin; simpl in Hdb, Hin.
  rewrite <- Hin in E.
  destruct (proj2 (IdLoopFacts.reaches_first_valid (f0 :: formulas) w1
                     b1 l1 (b2 ++ l2 :: b3 ++ l3 :: rest) E Hb1) f Hf Hl1)
    as (out1 & R1).
  match type of R1 with _ = (_, ?W) => set (W2 := W) in * end.
  destruct (FloatLoopFacts.first_accepted py_float float_str
              (lit "请输入体积（L，需大于 0）: ") PyFloat.floor_0_0001 W2
              b2 l2 (b3 ++ l3 :: rest) v eq_refl Hb2 Hl2) as (out2 & R2 & _).
  match type of R2 with _ = (_, ?W) => set (W3 := W) in * end.
  destruct (FloatLoopFacts.first_accepted py_float float_str
              (lit "请输入稀释倍数（例如 1 表示直接配制，10 表示 10x 母液，需大于 0）: ")
              PyFloat.floor_0_0001 W3 b3 l3 rest d eq_refl Hb3 Hl3)
    as (out3 & R3 & _).
  match type of R3 with _ = (_, ?W) => set (W4 := W) in * end.
  destruct (SessionFacts.process_formula_run table_str (id f) v d
              (f0 :: formulas) W4)
    as (text & W5 & R4 & Hdb5 & Hin5 & written & Hout5).
  assert (Htext : fst (process_formula table_str (id f) v d (f0 :: formulas) w)
                  = Ret text).
  { rewrite <- (SessionFacts.process_formula_store table_str (id f) v d
                  (f0 :: formulas) W4 w) by exact Hdb.
    now rewrite R4. }
  assert (Hbody : session_body py_float float_str table_str (f0 :: formulas) w1
                  = (Ret tt, write (text ++ nl) W5)).
  { unfold session_body, bind at 1. rewrite R1.
    unfold bind at 1. rewrite R2.
    unfold bind at 1. rewrite R3.
    unfold bind at 1. rewrite R4. reflexivity. }
  destruct (SessionFacts.session_closes py_float float_str table_str
              w w1 f0 formulas H) as (w2 & -> & Hw2).
  rewrite Hbody in Hw2. subst w2.
  exists (stdout W4 ++ written), text. split; [exact Htext | ].
  cbn [write stdin]. rewrite Hin5.
  subst W4 W3 W2; cbn [db_file stdin stdout] in Hdb5, Hin5, Hout5 |- *.
  rewrite Hdb in Hdb5.
  destruct rest; unfold write, asked; cbn [db_file stdin stdout tl];
    rewrite ?Hin5, Hdb5, Hout5, <- !app_assoc; reflexivity.
Qed.

Lemma main_report_witness :
  exists out text,
    fst (process_formula Sample.bars 1 (PyFloat.of_Z 2) (PyFloat.of_Z 10)
           Sample.formulas
           (Sample.world (Opened Sample.catalog)
              [lit "9"; lit " 1 "; lit "0"; lit "2"; lit "10"; lit ""]))
    = Ret text
    /\ main Sample.float_of Sample.str_of Sample.bars
         (Sample.world (Opened Sample.catalog)
            [lit "9"; lit " 1 "; lit "0"; lit "2"; lit "10"; lit ""])
       = (Ret tt,
          {| db_file := Opened Sample.catalog; stdin := [];
             stdout := out ++ [text ++ nl; closing_message; enter_prompt] |}).
Proof.
  apply (main_report Sample.float_of Sample.str_of Sample.bars
           (Sample.world (Opened Sample.catalog)
              [lit "9"; lit " 1 "; lit "0"; lit "2"; lit "10"; lit ""])
           _ _ _ {| id := 1; name := lit "Hoagland" |}
           [lit "9"] [lit "0"] [] (lit " 1 ") (lit "2") (lit "10") [lit ""]
           (PyFloat.of_Z 2) (PyFloat.of_Z 10) eq_refl eq_refl).
  - repeat constructor;
      [ intros [H | H]; vm_compute in H; discriminate
      | intros f [<- | [<- | [<- | []]]]; vm_compute; discriminate ].
  - left; reflexivity.
  - reflexivity.
  - repeat constructor.
  - split; reflexivity.
  - constructor.
  - split; reflexivity.
Defined.

(** X18. With a catalog that is not empty, when the input ends before the
    formula prompt gets a line it accepts, the EOFError inside the
    session is caught and printed as the error line, the closing line
    follows, and the final wait for Enter, which is outside the handler,
    ends main with EOFError. *)
Theorem main_input_exhausted (py_float : pystr -> option float)
    (float_str : float -> pystr) (table_str : PrettyTable -> pystr)
    (w w1 : World) (f0 : Formula) (formulas : list Formula) :
  get_all_formulas w = (Ret (f0 :: formulas), w1) ->
  Forall (id_rejected (f0 :: formulas)) (stdin w) ->
  fst (main py_float float_str table_str w) = Raise EOFError
  /\ stdin (snd (main py_float float_str table_str w)) = []
  /\ exists out,
       stdout (snd (main py_float float_str table_str w))
       = out ++ [(lit "程序发生错误: " ++ lit "EOF when reading a line") ++ nl;
                 closing_message; enter_prompt].
Proof.
  intros H Hall.
  destruct (SessionFacts.get_all_formulas_world w) as (_ & Hin & _).
  rewrite H in Hin; simpl in Hin. rewrite <- Hin in Hall.
  pose proof (formula_loop_result (f0 :: formulas) w1) as P.
  assert (Hbody : exists w', session_body py_float float_str table_str
                               (f0 :: formulas) w1 = (Raise EOFError, w')
                             /\ stdin w' = []).
  { unfold session_body, bind at 1.
    destruct (get_valid_formula_id (f0 :: formulas) w1) as [[[n | ] | e] w'];
      simpl in P.
    - exfalso. destruct P as (before & line & f & E & _ & Hf & Hid & Hs).
      rewrite E in Hall. apply Forall_app in Hall as [_ Hall].
      apply Forall_inv in Hall. destruct Hall as [_ Hl].
      apply (Hl f Hf). now rewrite Hid.
    - exfalso. destruct P as (before & line & E & _ & Hq).
      rewrite E in Hall. apply Forall_app in Hall as [_ Hall].
      apply Forall_inv in Hall. destruct Hall as [Hl _]. exact (Hl Hq).
    - destruct P as (-> & Hs & _). eauto. }
  destruct Hbody as (w' & Hbody & Hs).
  destruct (SessionFacts.session_closes py_float float_str table_str
              w w1 f0 formulas H) as (w2 & -> & Hw2).
  rewrite Hbody in Hw2. subst w2. cbn [write stdin]. rewrite Hs.
  cbn [fst snd write stdin stdout]. repeat split; auto.
  exists (stdout w'). unfold exn_str.
  rewrite <- (app_assoc (stdout w')), <- (app_assoc (stdout w')). reflexivity.
Qed.

Lemma main_input_exhausted_witness :
  fst (main Sample.float_of Sample.str_of Sample.bars
         (Sample.world (Opened Sample.catalog) [lit "9"; lit ""; lit "one"]))
  = Raise EOFError.
Proof.
  apply (main_input_exhausted Sample.float_of Sample.str_of Sample.bars
           (Sample.world (Opened Sample.catalog) [lit "9"; lit ""; lit "one"])
           _ _ _ eq_refl).
  repeat constructor;
    try (intros [H | H]; vm_compute in H; discriminate);
    intros f [<- | [<- | [<- | []]]]; vm_compute; discriminate.
Defined.

(** ** Edge cases of the prompt and of the queries, and the order of the report *)

(** X19. A line that float() reads as a NaN is returned by get_valid_float
    at once, whatever the floor: the only test is value < min_value,
    which is false for a NaN, so no message is printed and the line is
    not asked again. *)
Theorem nan_passes_the_float_prompt (py_float : pystr -> option float)
    (float_str : float -> pystr) (prompt : pystr) (min_value : float)
    (w : World) (line : pystr) (rest : list pystr) :
  stdin w = line :: rest ->
  py_float (strip line) = Some S754_nan ->
  get_valid_float py_float float_str prompt min_value w
  = (Ret S754_nan, asked prompt rest w).
Proof.
  intros E Hp.
  rewrite (LoopFacts.get_valid_float_turn py_float float_str prompt
             min_value w line rest E), Hp.
  reflexivity.
Qed.

Lemma nan_passes_the_float_prompt_witness :
  get_valid_float Sample.float_of Sample.str_of (lit "> ")
    PyFloat.floor_0_0001
    (Sample.world (Opened Sample.catalog) [lit " nan"; lit "2"])
  = (Ret S754_nan,
     asked (lit "> ") [lit "2"]
       (Sample.world (Opened Sample.catalog) [lit " nan"; lit "2"])).
Proof.
  exact (nan_passes_the_float_prompt Sample.float_of Sample.str_of (lit "> ")
           PyFloat.floor_0_0001
           (Sample.world (Opened Sample.catalog) [lit " nan"; lit "2"])
           (lit " nan") [lit "2"] eq_refl eq_refl).
Defined.

(** X20. A file that cannot be opened makes get_db_connection print the
    connection-failure line with the error text and return None, and
    both queries then print that line only.  A file that opens but
    cannot be read gives a connection without any output, and each
    query prints its own failure line with the error text. *)
Theorem diagnostic_names_the_error (formula_id : Z) (w : World) (err : pystr) :
  (db_file w = Unopenable err ->
     get_db_connection w
       = (Ret None, write ((lit "数据库连接失败: " ++ err) ++ nl) w)
     /\ snd (get_all_formulas w)
        = write ((lit "数据库连接失败: " ++ err) ++ nl) w
     /\ snd (get_formula_chemicals formula_id w)
        = write ((lit "数据库连接失败: " ++ err) ++ nl) w)
  /\ (db_file w = Unreadable err ->
        get_db_connection w = (Ret (Some (Broken err)), w)
        /\ snd (get_all_formulas w)
           = write ((lit "数据库查询失败: " ++ err) ++ nl) w
        /\ snd (get_formula_chemicals formula_id w)
           = write ((lit "查询配方化合物失败: " ++ err) ++ nl) w).
Proof.
  rewrite RepositoryFacts.get_db_connection_eq,
    RepositoryFacts.get_all_formulas_eq,
    RepositoryFacts.get_formula_chemicals_eq.
  split; intros ->; auto.
Qed.

Lemma diagnostic_names_the_error_witness :
  snd (get_all_formulas
         (Sample.world (Unreadable (lit "file is not a database")) []))
  = write ((lit "数据库查询失败: " ++ lit "file is not a database") ++ nl)
      (Sample.world (Unreadable (lit "file is not a database")) []).
Proof.
  exact (proj1 (proj2 (proj2 (diagnostic_names_the_error 1
                                (Sample.world
                                   (Unreadable (lit "file is not a database")) [])
                                (lit "file is not a database")) eq_refl))).
Defined.

Lemma strongly_sorted_map {A B} (R : A -> A -> Prop) (S : B -> B -> Prop)
    (g : A -> B) l :
  (forall a b, R a b -> S (g a) (g b)) ->
  StronglySorted R l -> StronglySorted S (map g l).
Proof.
  intros Hg; induction 1 as [ | a l Hl IH Ha]; simpl; constructor; auto.
  apply Forall_map. eapply Forall_impl; [ | exact Ha]. auto.
Qed.

(** X21. Whatever the store, the rows of the report built from the list
    that get_formula_chemicals returns are in ascending order of their
    first cell, the category: the loop of process_formula keeps the
    order of the query. *)
Theorem report_rows_sorted_by_category (formula_id : Z) (v d : float)
    (w : World) :
  exists returned w',
    get_formula_chemicals formula_id w = (Ret returned, w')
    /\ StronglySorted
         (fun row row' => PyStr.leb (hd [] row) (hd [] row') = true)
         (rows (report_table returned v d)).
Proof.
  assert (H : exists returned w',
             get_formula_chemicals formula_id w = (Ret returned, w')
             /\ StronglySorted category_le returned).
  { rewrite RepositoryFacts.get_formula_chemicals_eq.
    destruct (db_file w) as [err | err | db];
      try (eexists _, _; split; [reflexivity | constructor]).
    destruct (formula_chemicals db);
      [destruct (chemicals db) | ];
      eexists _, _; split; try reflexivity; try constructor.
    apply OrderFacts.chemicals_sorted. }
  destruct H as (returned & w' & -> & Hs).
  exists returned, w'; split; [reflexivity | ].
  rewrite ReportFacts.report_table_rows.
  apply (strongly_sorted_map category_le _ (fun ch => dose_row ch v d));
    [ | exact Hs].
  intros a b Hab; exact Hab.
Qed.
